(** * Device inventory backend: record normalisation and lookup

    A shallow embedding of [backend/app.py]: the four MongoDB-backed
    endpoints ([get_mongodb_devices], [get_device_specifications],
    [get_device_applications], [get_devices_with_tags]), the Python and
    [re] fragments they rely on, and the properties of the design
    description that concern them.

    Modelling conventions.
    - A Python [str] is a [string] of code points below 256.  On that range
      [\d] is ['0'..'9'], [\s] is the [str.isspace] set, and [str.lower]
      and [re.IGNORECASE] fold ['A'..'Z'] and the accented capitals.
    - Python integers are [Z].  A conversion between an integer and its
      decimal text raises [ValueError] beyond 4300 digits, the default of
      [sys.int_info] in the interpreters the application runs on (3.9.14,
      3.10.7, 3.11 and later).  An integer a document stores is a BSON
      integer of at most 64 bits, which [print] and the JSON encoders
      write without meeting the limit.
    - A [dict] is a [gmap string value]; a BSON double is a [spec_float].
    - An exception is a value [Raise e] of the [result] type; [print] calls
      leave no trace.
    - A response is the Python object handed to [jsonify] or
      [json_util.dumps] together with the status code; its JSON text is not
      modelled.  [jsonify] raises [TypeError] on an object that holds an
      ObjectId; [json_util.dumps] writes every value.
    - [lastSeen], computed from the clock and [random], is an input. *)

From Stdlib Require Import ZArith String Ascii List Bool Lia.
From Stdlib Require Import Floats.SpecFloat.
From stdpp Require Import gmap strings list fin_maps.

Set Warnings "-register-all".

(** ** Characters and strings *)

Module Str.

Definition code (a : ascii) : N := N_of_ascii a.

Definition between (lo hi : N) (a : ascii) : bool :=
  ((lo <=? code a) && (code a <=? hi))%N.

(** [\d], and [str.isdecimal] *)
Definition isdecimal (a : ascii) : bool := between 48 57 a.

(** [\s], and [str.isspace]: TAB..CR, FS..US, space, NEL, NBSP *)
Definition isspace (a : ascii) : bool :=
  between 9 13 a || between 28 32 a || (code a =? 133)%N || (code a =? 160)%N.

(** capitals: A..Z and the accented ones, the multiplication sign apart *)
Definition isupper (a : ascii) : bool :=
  between 65 90 a || (between 192 222 a && negb (code a =? 215)%N).

Definition lower_char (a : ascii) : ascii :=
  if isupper a then ascii_of_N (code a + 32) else a.

(** [s.lower()] *)
Fixpoint lower (s : string) : string :=
  match s with
  | EmptyString => EmptyString
  | String a t => String (lower_char a) (lower t)
  end.

Definition ishex (a : ascii) : bool :=
  isdecimal a || between 97 102 a || between 65 70 a.

Definition digit_val (a : ascii) : Z := Z.of_N (code a) - 48.

(** the decimal value of a run of digits *)
Definition int_digits (l : list ascii) : Z :=
  fold_left (fun acc a => 10 * acc + digit_val a)%Z l 0%Z.

Fixpoint lstrip (l : list ascii) : list ascii :=
  match l with
  | a :: t => if isspace a then lstrip t else l
  | [] => []
  end.

Definition strip (l : list ascii) : list ascii := rev (lstrip (rev (lstrip l))).

(** [sys.int_info.default_max_str_digits]: the most digits a decimal text
    may have when it is converted to an integer, or an integer when it is
    written as text *)
Definition max_str_digits : Z := 4300.

Definition within_limit (digits : list ascii) : bool :=
  (Z.of_nat (length digits) <=? max_str_digits)%Z.

(** the digits of an integer literal: single underscores may separate
    digits; [prev] tells whether the previous character was a digit *)
Fixpoint int_body (prev : bool) (acc : Z) (l : list ascii) : option Z :=
  match l with
  | [] => if prev then Some acc else None
  | a :: t =>
      if isdecimal a then int_body true (10 * acc + digit_val a)%Z t
      else if Ascii.eqb a "_" && prev then int_body false acc t
      else None
  end.

(** [int(s)] for a string [s], base 10: surrounding whitespace, an optional
    sign, digits, no more of them than the limit allows (leading zeros
    count, the sign and the underscores do not); [None] stands for
    [ValueError] *)
Definition int_literal (s : string) : option Z :=
  let l := strip (list_ascii_of_string s) in
  if within_limit (List.filter isdecimal l) then
    match l with
    | "-"%char :: t => Z.opp <$> int_body false 0 t
    | "+"%char :: t => int_body false 0 t
    | l => int_body false 0 l
    end
  else None.

(** [sub in s] for two strings *)
Fixpoint prefix_of (p s : list ascii) : bool :=
  match p, s with
  | [], _ => true
  | c :: p', a :: s' => Ascii.eqb c a && prefix_of p' s'
  | _ :: _, [] => false
  end.

Fixpoint contains (sub s : list ascii) : bool :=
  prefix_of sub s || match s with [] => false | _ :: t => contains sub t end.

End Str.

(** ** Python values, exceptions *)

Inductive value : Type :=
| VNone
| VBool (b : bool)
| VInt (z : Z)
| VFloat (f : spec_float)
| VStr (s : string)
| VOid (hex : string)                  (* bson.ObjectId, by its hex form *)
| VList (l : list value)
| VDict (d : gmap string value).

Abbreviation dict := (gmap string value).

Inductive exn : Type :=
| KeyError | TypeError | ValueError | AttributeError | OverflowError | InvalidId.

Inductive result (A : Type) : Type :=
| Ok (a : A)
| Raise (e : exn).
Arguments Ok {A} a.
Arguments Raise {A} e.

#[global] Instance result_ret : MRet result := fun A a => Ok a.
#[global] Instance result_bind : MBind result := fun A B f m =>
  match m with Ok a => f a | Raise e => Raise e end.

(** a comprehension or [map] whose body may raise: the first exception
    ends it *)
Fixpoint for_each {A B : Type} (f : A -> result B) (l : list A) : result (list B) :=
  match l with
  | [] => Ok []
  | x :: t => y ← f x; ys ← for_each f t; Ok (y :: ys)
  end.

Module Py.

(** [int(x)] for a float: truncation toward zero *)
Definition int_float (f : spec_float) : result Z :=
  match f with
  | S754_zero _ => Ok 0%Z
  | S754_infinity _ => Raise OverflowError
  | S754_nan => Raise ValueError
  | S754_finite s m e =>
      let a := (if 0 <=? e then Z.pos m * 2 ^ e else Z.pos m / 2 ^ (- e))%Z in
      Ok (if s then (- a)%Z else a)
  end.

(** [int(x)] *)
Definition int (x : value) : result Z :=
  match x with
  | VBool b => Ok (Z.b2z b)
  | VInt z => Ok z
  | VFloat f => int_float f
  | VStr s => match Str.int_literal s with Some z => Ok z | None => Raise ValueError end
  | VNone | VOid _ | VList _ | VDict _ => Raise TypeError
  end.

(** [max(l)] for a list of integers that is not empty *)
Definition max (l : list Z) : result Z :=
  match l with
  | [] => Raise ValueError
  | x :: t => Ok (fold_left Z.max t x)
  end.

(** [d[k]] *)
Definition getitem (d : dict) (k : string) : result value :=
  match d !! k with Some v => Ok v | None => Raise KeyError end.

(** [d.get(k)] and [d.get(k, dflt)] *)
Definition get (d : dict) (k : string) : value := default VNone (d !! k).
Definition get_or (d : dict) (k : string) (dflt : value) : value := default dflt (d !! k).

(** [k in d] *)
Definition has_key (d : dict) (k : string) : bool :=
  match d !! k with Some _ => true | None => false end.

(** [x[k]] for a string key [k]: only a mapping can be indexed this way *)
Definition subscript (x : value) (k : string) : result value :=
  match x with
  | VDict d => getitem d k
  | _ => Raise TypeError
  end.

(** [for y in x]: the elements of a list, the characters of a string, the
    keys of a mapping *)
Definition iter (x : value) : result (list value) :=
  match x with
  | VList l => Ok l
  | VStr s => Ok (map (fun a => VStr (String a EmptyString)) (list_ascii_of_string s))
  | VDict d => Ok (map (fun kv => VStr kv.1) (map_to_list d))
  | _ => Raise TypeError
  end.

(** [x == s] for a string [s] *)
Definition eq_str (x : value) (s : string) : bool :=
  match x with VStr t => String.eqb t s | _ => false end.

(** [s in x] for a string [s] *)
Definition contains (s : string) (x : value) : result bool :=
  match x with
  | VStr t => Ok (Str.contains (list_ascii_of_string s) (list_ascii_of_string t))
  | VList l => Ok (existsb (fun y => eq_str y s) l)
  | VDict d => Ok (has_key d s)
  | _ => Raise TypeError
  end.

(** [x.lower()]: only [str] has the method *)
Definition lower (x : value) : result value :=
  match x with
  | VStr s => Ok (VStr (Str.lower s))
  | _ => Raise AttributeError
  end.

(** [x is None] *)
Definition is_none (x : value) : bool :=
  match x with VNone => true | _ => false end.

(** the truth value of a mapping *)
Definition truthy (d : dict) : bool := negb (Nat.eqb (size d) 0).

(** what the JSON encoder behind [jsonify] can write: every value but an
    ObjectId, at any depth *)
Fixpoint serialisable (x : value) : bool :=
  match x with
  | VOid _ => false
  | VList l => forallb serialisable l
  | VDict d => map_fold (fun _ v rest => serialisable v && rest) true d
  | _ => true
  end.

End Py.

(** ** The fragment of [re] the endpoints use *)

Module Re.

(** one-character matchers *)
Inductive cset : Type :=
| Lit (c : ascii)        (* a literal character, under IGNORECASE *)
| Digit                  (* \d *)
| Space.                 (* \s *)

Definition accepts (c : cset) (a : ascii) : bool :=
  match c with
  | Lit c => Ascii.eqb (Str.lower_char c) (Str.lower_char a)
  | Digit => Str.isdecimal a
  | Space => Str.isspace a
  end.

Inductive regex : Type :=
| Eps
| One (c : cset)
| Rep0 (c : cset)        (* c*, greedy *)
| Rep1 (c : cset)        (* c+, greedy *)
| Cat (r1 r2 : regex)
| Maybe (r : regex)      (* (?:r)?, greedy *)
| Group (r : regex).     (* (r): group 1 *)

(** the literal text [w], then [r] *)
Fixpoint word (w : string) (r : regex) : regex :=
  match w with
  | EmptyString => r
  | String c w' => Cat (One (Lit c)) (word w' r)
  end.

(** a way to match: what is left of the subject, and the text of group 1
    when the group took part *)
Definition state : Type := list ascii * option (list ascii).

(** the ways [c*] can match at the head of [s], longest first *)
Fixpoint reps (c : cset) (s : list ascii) : list (list ascii) :=
  match s with
  | a :: t => if accepts c a then reps c t ++ [s] else [s]
  | [] => [[]]
  end.

(** group 1 after [r1 r2]: what [r2] captured, else what [r1] did *)
Definition carry (g1 : option (list ascii)) (m2 : state) : state :=
  (m2.1, match m2.2 with Some g => Some g | None => g1 end).

(** the ways [r] can match at the head of [s], in the order a backtracking
    matcher tries them *)
Fixpoint run (r : regex) (s : list ascii) : list state :=
  match r with
  | Eps => [(s, None)]
  | One c =>
      match s with
      | a :: t => if accepts c a then [(t, None)] else []
      | [] => []
      end
  | Rep0 c => map (fun t => (t, None)) (reps c s)
  | Rep1 c =>
      match s with
      | a :: t => if accepts c a then map (fun t => (t, None)) (reps c t) else []
      | [] => []
      end
  | Cat r1 r2 => flat_map (fun m1 : state => map (carry m1.2) (run r2 m1.1)) (run r1 s)
  | Maybe r => run r s ++ [(s, None)]
  | Group r => map (fun m : state => (m.1, Some (take (length s - length m.1) s))) (run r s)
  end.

(** what is left of [s] once [c*] has taken all it can *)
Fixpoint skip (c : cset) (s : list ascii) : list ascii :=
  match s with
  | a :: t => if accepts c a then skip c t else s
  | [] => []
  end.

(** [r] has no capturing group *)
Fixpoint groupless (r : regex) : bool :=
  match r with
  | Eps | One _ | Rep0 _ | Rep1 _ => true
  | Cat r1 r2 => groupless r1 && groupless r2
  | Maybe r => groupless r
  | Group _ => false
  end.

(** [re.search(r, s, re.IGNORECASE)]: the first way to match at the
    leftmost position that has one *)
Fixpoint search (r : regex) (s : list ascii) : option state :=
  match run r s with
  | m :: _ => Some m
  | [] => match s with
          | [] => None
          | _ :: t => search r t
          end
  end.

(** [m.group(1)] *)
Definition group1 (m : state) : value :=
  match m.2 with
  | Some g => VStr (string_of_list_ascii g)
  | None => VNone
  end.

(** [re.findall(r, s)] for a pattern without groups: the successive
    matches, left to right, none overlapping *)
Fixpoint findall_from (fuel : nat) (r : regex) (s : list ascii) : list (list ascii) :=
  match fuel with
  | 0 => []
  | S fuel' =>
      match run r s, s with
      | m :: _, _ =>
          let n := length s - length m.1 in
          take n s :: match n, s with
                      | 0, [] => []
                      | 0, _ :: t => findall_from fuel' r t
                      | _, _ => findall_from fuel' r m.1
                      end
      | [], [] => []
      | [], _ :: t => findall_from fuel' r t
      end
  end.

Definition findall (r : regex) (s : list ascii) : list (list ascii) :=
  findall_from (S (length s)) r s.

End Re.

(** ** The record store *)

Module Store.

(** A stored document: the identifier the store generated for it (an
    ObjectId, kept by its hex form) and its fields. *)
Record document : Type := Document { _id : string; fields : dict }.

(** the mapping a query hands back for a document *)
Definition to_dict (doc : document) : dict := <["_id" := VOid (_id doc)]> (fields doc).

Record database : Type := Database {
  device_specs_collection : list document;     (* db['device_specifications'] *)
  device_apps_collection : list document       (* db['device_applications'] *)
}.

(** the store's equality match of a field with a string: the field is the
    string, or an array that holds it *)
Definition field_is (s : string) (v : value) : bool :=
  match v with
  | VStr t => String.eqb t s
  | VList l => existsb (fun x => Py.eq_str x s) l
  | _ => false
  end.

(** [collection.find_one({k: s})] *)
Definition find_one_by (k s : string) (collection : list document) : option document :=
  List.find (fun doc => match to_dict doc !! k with
                        | Some v => field_is s v
                        | None => false
                        end) collection.

(** [collection.find_one({'_id': oid})] *)
Definition find_one_id (oid : string) (collection : list document) : option document :=
  List.find (fun doc => String.eqb (_id doc) oid) collection.

(** [collection.find({}, projection)]: the listed fields only *)
Definition project (keys : list string) (d : dict) : dict :=
  filter (fun kv => kv.1 ∈ keys) d.

(** [bytes.fromhex], read back as lower-case hex digits: pairs of hex
    digits, ASCII whitespace allowed between pairs *)
Fixpoint fromhex (l : list ascii) : option (list ascii) :=
  match l with
  | [] => Some []
  | a :: t =>
      if Str.between 9 13 a || Str.between 32 32 a then fromhex t
      else match t with
           | b :: t' =>
               if Str.ishex a && Str.ishex b
               then cons (Str.lower_char a) <$> (cons (Str.lower_char b) <$> fromhex t')
               else None
           | [] => None
           end
  end.

(** [ObjectId(s)] for a string [s], by the hex form [str] gives back *)
Definition ObjectId (s : string) : result string :=
  if Nat.eqb (String.length s) 24 then
    match fromhex (list_ascii_of_string s) with
    | Some h => Ok (string_of_list_ascii h)
    | None => Raise InvalidId
    end
  else Raise InvalidId.

End Store.

(** ** The endpoints *)

Module App.
Import Store.

Local Open Scope string_scope.

Inductive response : Type :=
| Json (status : Z) (body : value)
    (* jsonify(body), status  or  json_util.dumps(body), status *)
| Failure (message : string) (e : exn).
    (* jsonify({'status': 'error', 'message': message + str(e)}), 500 *)

(** [jsonify(x)]: the object to send, [TypeError] when the encoder cannot
    write it *)
Definition jsonify (x : value) : result value :=
  if Py.serialisable x then Ok x else Raise TypeError.

(** how a pass through the loop body ends: at a [continue], or at its
    last statement *)
Inductive flow (A : Type) : Type :=
| Continue (a : A)
| Through (a : A).
Arguments Continue {A} a.
Arguments Through {A} a.

Definition reading {A : Type} (f : flow A) : A :=
  match f with Continue a => a | Through a => a end.

(** the projection of [get_mongodb_devices] *)
Definition spec_projection : list string :=
  ["deviceName"; "Category"; "Processor"; "AI Performance"; "Memory"; "Storage";
   "OS"; "Wireless"; "WLAN"; "BT"; "Ethernet"; "Camera"; "I/O"; "Button";
   "Operating Tempeture"; "Dimension"; "Weight"; "Power"; "Super Mode"; "tag";
   "description_summary"; "_id"].

(** [apps['applications']] under the guard [apps and 'applications' in apps] *)
Definition linked_applications (apps : option dict) : option value :=
  match apps with
  | Some a => if Py.truthy a then a !! "applications" else None
  | None => None
  end.

(** [[app['name'] for app in apps['applications']]], or [[]] when the
    guard fails *)
Definition application_names (apps : option dict) : result value :=
  match linked_applications apps with
  | Some l =>
      entries ← Py.iter l;
      names ← for_each (fun app => Py.subscript app "name") entries;
      Ok (VList names)
  | None => Ok (VList [])
  end.

(** r'Up to (\d+)(?:\s*TOPS)?' *)
Definition up_to_re : Re.regex :=
  Re.word "Up to "
    (Re.Cat (Re.Group (Re.Rep1 Re.Digit))
            (Re.Maybe (Re.Cat (Re.Rep0 Re.Space) (Re.word "TOPS" Re.Eps)))).

(** r'(\d+)\s*TOPS' *)
Definition tops_re : Re.regex :=
  Re.Cat (Re.Group (Re.Rep1 Re.Digit)) (Re.Cat (Re.Rep0 Re.Space) (Re.word "TOPS" Re.Eps)).

(** r'\d+' *)
Definition digits_re : Re.regex := Re.Rep1 Re.Digit.

(** the value [device['performance']] receives from [ai_perf], and whether
    the pass ends there *)
Definition performance (ai_perf : value) : result (flow Z) :=
  match ai_perf with
  | VStr s =>
      let text := list_ascii_of_string s in
      match Re.search up_to_re text with
      | Some up_to_match => p ← Py.int (Re.group1 up_to_match); Ok (Continue p)
      | None =>
      match Re.search tops_re text with
      | Some tops_match => p ← Py.int (Re.group1 tops_match); Ok (Continue p)
      | None =>
      match Re.findall digits_re text with
      | [] => Ok (Through 0%Z)
      | numbers =>
          ints ← for_each (fun n => Py.int (VStr (string_of_list_ascii n))) numbers;
          p ← Py.max ints;
          Ok (Continue p)
      end end end
  | _ =>
      match Py.int ai_perf with
      | Ok p => Ok (Through p)
      | Raise ValueError | Raise TypeError => Ok (Through 0%Z)
      | Raise e => Raise e
      end
  end.

Definition status_of (super_mode : value) : string :=
  if Py.eq_str super_mode "Enable" then "enabled" else "disabled".

Definition formatted_status_of (super_mode : value) : string :=
  if Py.eq_str super_mode "Enable" then "Super Mode: Enabled" else "Super Mode: Disabled".

(** one pass of the loop of [get_mongodb_devices] over a fetched document *)
Definition device_view (db : database) (seen : string) (doc : document) : result dict :=
  let device := project spec_projection (to_dict doc) in
  let device_id := _id doc in                            (* str(device['_id']) *)
  let apps := to_dict <$> find_one_by "device_id" device_id (device_apps_collection db) in
  names ← application_names apps;
  let device := <["applications" := names]> device in
  let super_mode := Py.get device "Super Mode" in
  let device := <["status" := VStr (status_of super_mode)]> device in
  let device := <["formatted_status" := VStr (formatted_status_of super_mode)]> device in
  let ai_perf := Py.get_or device "AI Performance" (VStr "") in
  perf ← performance ai_perf;
  match perf with
  | Continue p => Ok (<["performance" := VInt p]> device)
  | Through p =>
      let device := <["performance" := VInt p]> device in
      let device := <["type" := VStr "ai_edge"]> device in
      let device := <["model" := Py.get_or device "deviceName" (VStr "")]> device in
      let device := <["name" := Py.get_or device "deviceName" (VStr "")]> device in
      Ok (<["lastSeen" := VStr seen]> device)
  end.

(** the loop: document [i] is given the timestamp [seen i] *)
Fixpoint device_views (db : database) (seen : nat -> string) (i : nat)
    (docs : list document) : result (list dict) :=
  match docs with
  | [] => Ok []
  | doc :: rest =>
      view ← device_view db (seen i) doc;
      views ← device_views db seen (S i) rest;
      Ok (view :: views)
  end.

(** GET /api/devices/mongodb *)
Definition get_mongodb_devices (db : database) (seen : nat -> string) : response :=
  match device_views db seen 0 (device_specs_collection db) with
  | Ok devices_specs => Json 200 (VList (VDict <$> devices_specs))
  | Raise e => Failure "Failed to fetch devices: " e
  end.

Definition not_found : response :=
  Json 404 (VDict {["error" := VStr "Specifications not found"]}).

(** the second lookup of [get_device_specifications], inside its [try]:
    the object to send, if a document was found; [jsonify] is called
    inside the [try] too *)
Definition specifications_by_oid (db : database) (device_id : string) : result (option value) :=
  oid ← ObjectId device_id;
  match find_one_id oid (device_specs_collection db) with
  | Some doc =>
      let specs := to_dict doc in
      if Py.truthy specs then
        let specs := <["_id" := VStr (_id doc)]> specs in      (* str(specs['_id']) *)
        let specs := if Py.has_key specs "description_summary" then specs
                     else <["description_summary" := VNone]> specs in
        body ← jsonify (VDict specs);
        Ok (Some body)
      else Ok None
  | None => Ok None
  end.

(** GET /api/devices/specifications/<device_id>: what the inner [try]
    raises is printed and the answer is "not found"; what the first
    [jsonify] raises reaches the outer handler *)
Definition get_device_specifications (db : database) (device_id : string) : response :=
  let by_oid :=
    match specifications_by_oid db device_id with
    | Ok (Some body) => Json 200 body
    | Ok None | Raise _ => not_found
    end in
  match find_one_by "device_id" device_id (device_specs_collection db) with
  | Some doc =>
      let specs := to_dict doc in
      if Py.truthy specs then
        match jsonify (VDict (delete "_id" specs)) with        (* specs.pop('_id', None) *)
        | Ok body => Json 200 body
        | Raise e => Failure "Failed to fetch specifications: " e
        end
      else by_oid
  | None => by_oid
  end.

Definition applications_body (l : value) : value := VDict {["applications" := l]}.

Definition server_apps : list string :=
  ["High-Performance Computing"; "Data Center Operations"; "Cloud Services";
   "Enterprise AI Solutions"].

Definition edge_apps : list string :=
  ["Smart Surveillance"; "Industrial Quality Inspection"; "Edge Computing"].

(** the [try] block of [get_device_applications]: the value of [device_id]
    when the block is left, and the object it returns, if it returns;
    [device_id] is assigned before [jsonify] is called *)
Definition applications_by_oid (db : database) (device_id : string)
    : string * result (option value) :=
  match ObjectId device_id with
  | Raise e => (device_id, Raise e)
  | Ok oid =>
      match find_one_id oid (device_specs_collection db) with
      | Some device =>
          if Py.truthy (to_dict device) then
            let device_id := _id device in               (* str(device['_id']) *)
            let apps :=
              to_dict <$> find_one_by "device_id" device_id (device_apps_collection db) in
            match linked_applications apps with
            | Some l => (device_id, body ← jsonify (applications_body l); Ok (Some body))
            | None => (device_id, Ok None)
            end
          else (device_id, Ok None)
      | None => (device_id, Ok None)
      end
  end.

(** the default applications, chosen after the [try] block *)
Definition default_applications (db : database) (device_id : string) : result value :=
  oid ← ObjectId device_id;
  match find_one_id oid (device_specs_collection db) with
  | Some device =>
      if Py.truthy (to_dict device) then
        is_server ← Py.contains "Server" (Py.get_or (to_dict device) "deviceName" (VStr ""));
        Ok (VList (VStr <$> (if is_server : bool then server_apps else edge_apps)))
      else Ok (VList [])
  | None => Ok (VList [])
  end.

(** GET /api/devices/applications/<device_id>: what the [try] block raises
    is printed, and the defaults are looked up with [device_id] as the
    block left it; anything else raised reaches the outer handler *)
Definition get_device_applications (db : database) (device_id : string) : response :=
  let apps := to_dict <$> find_one_by "device_id" device_id (device_apps_collection db) in
  match linked_applications apps with
  | Some l =>
      match jsonify (applications_body l) with
      | Ok body => Json 200 body
      | Raise e => Failure "Failed to fetch applications: " e
      end
  | None =>
      let after_try := applications_by_oid db device_id in
      match after_try.2 with
      | Ok (Some body) => Json 200 body
      | Ok None | Raise _ =>
          match (l ← default_applications db after_try.1;
                 jsonify (applications_body l)) with
          | Ok body => Json 200 body
          | Raise e => Failure "Failed to fetch applications: " e
          end
      end
  end.

(** one pass of the loop of [get_devices_with_tags] *)
Definition tagged_view (db : database) (doc : document) : result dict :=
  let device := <["_id" := VStr (_id doc)]> (to_dict doc) in  (* str(device['_id']) *)
  let resolved :=
    if Py.has_key device "tag" then (Py.get device "tag", device)
    else if Py.has_key device "Tag" then (Py.get device "Tag", delete "Tag" device)
    else (VNone, device) in
  let tag_value := resolved.1 in
  let device := <["tag" := tag_value]> resolved.2 in
  device ← (if Py.is_none tag_value then Ok device
            else t ← Py.lower tag_value; Ok (<["tag" := t]> device));
  let device_id := _id doc in                            (* device['_id'] *)
  let apps := to_dict <$> find_one_by "device_id" device_id (device_apps_collection db) in
  names ← application_names apps;
  let device := <["applications" := names]> device in
  let device :=
    if Py.has_key device "deviceName"
    then <["formattedName" := Py.get device "deviceName"]> device
    else
      let device := <["deviceName" := VStr ("Unknown Device (" ++ _id doc ++ ")")]> device in
      <["formattedName" := Py.get device "deviceName"]> device in
  let device := if Py.has_key device "description" then device
                else <["description" := VNone]> device in
  Ok device.

(** GET /api/devices/with-tags *)
Definition get_devices_with_tags (db : database) : response :=
  match for_each (tagged_view db) (device_specs_collection db) with
  | Ok devices_specs => Json 200 (VList (VDict <$> devices_specs))
  | Raise e => Failure "Failed to fetch devices with tags: " e
  end.

End App.


(** ** The extraction rules, as the design description words them *)

Module Rules.
Import Str.

Local Open Scope string_scope.

(** [s] begins with the text [w] (given in lower case), letter case apart:
    what follows it *)
Fixpoint after_text (w s : list ascii) : option (list ascii) :=
  match w, s with
  | [], _ => Some s
  | c :: w', a :: s' => if Ascii.eqb (lower_char a) c then after_text w' s' else None
  | _ :: _, [] => None
  end.

(** the digits [s] begins with, and what follows them *)
Fixpoint number (s : list ascii) : list ascii * list ascii :=
  match s with
  | a :: t => if isdecimal a then (a :: (number t).1, (number t).2) else ([], s)
  | [] => ([], [])
  end.

(** "Up to N", optionally followed by "TOPS", read at the head of [s] *)
Definition up_to_here (s : list ascii) : option Z :=
  match after_text (list_ascii_of_string "up to ") s with
  | Some rest =>
      match number rest with
      | ([], _) => None
      | (digits, _) => Some (int_digits digits)
      end
  | None => None
  end.

(** "N TOPS" read at the head of [s] *)
Definition tops_here (s : list ascii) : option Z :=
  match number s with
  | ([], _) => None
  | (digits, rest) =>
      match after_text (list_ascii_of_string "tops") (lstrip rest) with
      | Some _ => Some (int_digits digits)
      | None => None
      end
  end.

(** the first place of [s], from the left, where [here] reads something *)
Fixpoint leftmost {A : Type} (here : list ascii -> option A) (s : list ascii) : option A :=
  match here s with
  | Some x => Some x
  | None => match s with
            | [] => None
            | _ :: t => leftmost here t
            end
  end.

(** the digit runs of [s], left to right; [cur] is the run being read *)
Fixpoint digit_runs (cur s : list ascii) : list (list ascii) :=
  match s with
  | [] => match cur with [] => [] | _ => [cur] end
  | a :: t =>
      if isdecimal a then digit_runs (cur ++ [a]) t
      else match cur with
           | [] => digit_runs [] t
           | _ => cur :: digit_runs [] t
           end
  end.

Definition largest (l : list Z) : Z := fold_right Z.max 0%Z l.

(** rules 1 to 5, the first that applies *)
Definition performance (ai_perf : value) : Z :=
  match ai_perf with
  | VStr s =>
      let text := list_ascii_of_string s in
      match leftmost up_to_here text with
      | Some n => n                                              (* rule 1 *)
      | None =>
      match leftmost tops_here text with
      | Some n => n                                              (* rule 2 *)
      | None => largest (map int_digits (digit_runs [] text))    (* rules 3, 5 *)
      end end
  | _ =>
      match Py.int ai_perf with
      | Ok n => n                                                (* rule 4 *)
      | Raise _ => 0%Z                                           (* rule 5 *)
      end
  end.

(** the text [w] occurs in [s], letter case apart *)
Fixpoint mentions (w s : list ascii) : bool :=
  match after_text w s with
  | Some _ => true
  | None => match s with
            | [] => false
            | _ :: t => mentions w t
            end
  end.

End Rules.

(** ** Shapes of stored data the statements refer to *)

Module Shape.
Import Store.

Local Open Scope string_scope.

(** an application entry is a mapping with a ['name'] key *)
Definition named_entry (app : value) : bool :=
  match app with
  | VDict d => Py.has_key d "name"
  | _ => false
  end.

(** an application link whose ['applications'] field, if any, is a list of
    named entries *)
Definition link_well_formed (a : dict) : bool :=
  match a !! "applications" with
  | Some (VList entries) => forallb named_entry entries
  | Some _ => false
  | None => true
  end.

Definition links_well_formed (db : database) : bool :=
  forallb (fun doc => link_well_formed (to_dict doc)) (device_apps_collection db).

(** [device.get('AI Performance', '')] on the stored fields *)
Definition ai_perf_of (doc : document) : value :=
  Py.get_or (fields doc) "AI Performance" (VStr "").

Definition infinite (v : value) : bool :=
  match v with
  | VFloat (S754_infinity _) => true
  | _ => false
  end.

(** a text none of whose runs of digits is too long for [int], or a value
    that is not a text *)
Definition short_runs (v : value) : bool :=
  match v with
  | VStr s => forallb Str.within_limit (Rules.digit_runs [] (list_ascii_of_string s))
  | _ => true
  end.


Definition is_number (v : value) : bool :=
  match v with
  | VBool _ | VInt _ | VFloat _ => true
  | _ => false
  end.

(** a string that holds a digit *)
Definition has_digit (v : value) : bool :=
  match v with
  | VStr s => existsb Str.isdecimal (list_ascii_of_string s)
  | _ => false
  end.

(** the source tag: the ['tag'] key if present, else the ['Tag'] key, else
    nothing *)
Definition source_tag (d : dict) : value :=
  match d !! "tag" with
  | Some v => v
  | None => match d !! "Tag" with
            | Some v => v
            | None => VNone
            end
  end.

Definition null_or_str (v : value) : bool :=
  match v with
  | VNone | VStr _ => true
  | _ => false
  end.


End Shape.

(** ** Notions the proofs go through *)

Module Steps.
Import Str Re Rules Store App.

Local Open Scope string_scope.

(** [t] begins with a character [c] accepts *)
Definition starts_with (c : cset) (t : list ascii) : Prop :=
  match t with
  | a :: _ => accepts c a = true
  | [] => False
  end.

(** a run of digits, not empty *)
Definition digit_run (ds : list ascii) : Prop :=
  ds <> [] /\ Forall (fun a => isdecimal a = true) ds.

(** the digits rule 1 reads at the head of [s] *)
Definition up_to_digits (s : list ascii) : option (list ascii) :=
  match after_text (list_ascii_of_string "up to ") s with
  | Some rest =>
      match number rest with
      | ([], _) => None
      | (digits, _) => Some digits
      end
  | None => None
  end.

(** the digits rule 2 reads at the head of [s] *)
Definition tops_digits (s : list ascii) : option (list ascii) :=
  match number s with
  | ([], _) => None
  | (digits, rest) =>
      match after_text (list_ascii_of_string "tops") (lstrip rest) with
      | Some _ => Some digits
      | None => None
      end
  end.

(** what a successful search hands to [int]: the run of digits the rule
    reads at the same place *)
Definition reads (m : state) (ds : list ascii) : Prop :=
  m.2 = Some ds /\ digit_run ds.

(** [int] of a run of digits *)
Definition converted (ds : list ascii) : result Z :=
  if within_limit ds then Ok (int_digits ds) else Raise ValueError.

(** [l] is what is left of [s] from some place on *)
Definition tail_of (l s : list ascii) : Prop := exists p, s = (p ++ l)%list.

(** [ds], if not empty, ahead of [l] *)
Definition emit (ds : list ascii) (l : list (list ascii)) : list (list ascii) :=
  match ds with [] => l | _ => ds :: l end.

(** the fetched document once applications and status are set *)
Definition annotated (doc : document) (names : value) : dict :=
  <["formatted_status" := VStr (formatted_status_of (Py.get (fields doc) "Super Mode"))]>
  (<["status" := VStr (status_of (Py.get (fields doc) "Super Mode"))]>
  (<["applications" := names]> (project spec_projection (to_dict doc)))).

(** and once the pass is over *)
Definition completed (seen : string) (doc : document) (names : value) (perf : flow Z) : dict :=
  match perf with
  | Continue p => <["performance" := VInt p]> (annotated doc names)
  | Through p =>
      <["lastSeen" := VStr seen]>
      (<["name" := Py.get_or (fields doc) "deviceName" (VStr "")]>
      (<["model" := Py.get_or (fields doc) "deviceName" (VStr "")]>
      (<["type" := VStr "ai_edge"]>
      (<["performance" := VInt p]> (annotated doc names)))))
  end.

(** the tag statements of the loop, on the fetched mapping *)
Definition tag_step (device : dict) : result dict :=
  let resolved :=
    if Py.has_key device "tag" then (Py.get device "tag", device)
    else if Py.has_key device "Tag" then (Py.get device "Tag", delete "Tag" device)
    else (VNone, device) in
  let tag_value := resolved.1 in
  let device := <["tag" := tag_value]> resolved.2 in
  if Py.is_none tag_value then Ok device
  else t ← Py.lower tag_value; Ok (<["tag" := t]> device).

(** the name and description statements *)
Definition name_step (oid : string) (device : dict) : dict :=
  let device :=
    if Py.has_key device "deviceName"
    then <["formattedName" := Py.get device "deviceName"]> device
    else
      let device := <["deviceName" := VStr ("Unknown Device (" ++ oid ++ ")")]> device in
      <["formattedName" := Py.get device "deviceName"]> device in
  if Py.has_key device "description" then device
  else <["description" := VNone]> device.

(** what the tag becomes: a string is lower-cased, null stays null *)
Definition lowered (v : value) : value :=
  match v with
  | VStr s => VStr (Str.lower s)
  | _ => VNone
  end.

End Steps.

(** ** Sample data *)

Module Sample.
Import Store.

Local Open Scope string_scope.

(** the specification of the scenario, under the identifier [oid] *)
Definition ncox (oid : string) : document :=
  Document oid
    (list_to_map [("deviceName", VStr "NCOX"); ("AI Performance", VStr "Up to 16 TOPS");
                  ("Super Mode", VStr "Enable"); ("tag", VStr "Best Seller")]).

(** its application link, stored under [link_oid]; [more] are the other
    fields of the entry *)
Definition ncox_link (link_oid oid : string) (more : dict) : document :=
  Document link_oid
    (list_to_map [("device_id", VStr oid);
                  ("applications", VList [VDict (<["name" := VStr "Smart Surveillance"]> more)])]).

Definition scenario (link_oid oid : string) (more : dict) : database :=
  Database [ncox oid] [ncox_link link_oid oid more].

Definition an_oid : string := "67f4044ea91332165a91a8ab".
Definition a_link_oid : string := "67f4044ea91332165a91a8ff".

(** a mock identifier of [/api/devices] *)
Definition mock_id : string := "device-67f4044ea91332165a91a8ab".

Definition surveillance : dict :=
  list_to_map [("type", VStr "surveillance");
               ("description", VStr "Advanced video analytics for security monitoring")].

Definition ncox_db : database := scenario a_link_oid an_oid surveillance.

Definition clock (i : nat) : string := "2025-01-01T00:00:00".

(** a specification with nothing but a name *)
Definition bare : document :=
  Document an_oid (list_to_map [("deviceName", VStr "NCON")]).

Definition with_perf (v : value) : document :=
  Document an_oid (list_to_map [("deviceName", VStr "NCON"); ("AI Performance", v)]).


Definition with_mode (v : value) : document :=
  Document an_oid (list_to_map [("deviceName", VStr "NCON"); ("Super Mode", v)]).


Definition only (doc : document) : database := Database [doc] [].





End Sample.

(** ** The mock devices of [backend/app.py] and [backend/insert_mock_devices.py] *)

Module Mock.
Import Store.

Local Open Scope string_scope.

(** A mock device, as the literals of the [devices] lists have them (the
    list of [insert_mock_devices.py] has no ['id']). *)
Record device : Type := Device {
  id : option string;
  name : string;
  model : string;
  type : string;
  status : string;
  lastSeen : string;
  performance : Z;
  tag : option string;
  specs : gmap string string;
  applications : list string
}.

(** the ['specs'] of a device; the degree sign is the code point 176 *)
Definition jetson (processor memory networking dimensions weight : string)
    : gmap string string :=
  list_to_map
    [("processor", processor); ("memory", memory);
     ("storage", "External NVMe via x4 PCIe");
     ("operating_system", "Linux 5.10/ Ubuntu 20.04");
     ("networking", networking); ("io_interfaces", "1 x USB 2.0 Micro-B");
     ("dimensions", dimensions); ("weight", weight);
     ("power_input", "1 x DC-In 12~19V"); ("operating_temperature", "-20 ~ 60" ++ String (ascii_of_nat 176) "C")].

(** the [devices] list of [app.py] when the module is loaded; [ago m] is
    the text of the time [m] minutes earlier *)
Definition ncox (ago : Z -> string) : device :=
  Device (Some "device-67f4044ea91332165a91a8ab") "NCOX" "NCOX" "ai_edge" "disabled"
    (ago 5%Z) 16%Z (Some "Best Seller")
    (jetson "NVIDIA Jetson Orin NX" "16GB/8GB LPDDR5" "RJ45 1 x Gigabit Ethernet"
            "90(W) x 118(D) x 69(H) mm" "650g")
    ["Smart Surveillance"; "Industrial Quality Inspection"].

Definition ncon (ago : Z -> string) : device :=
  Device (Some "device-67f4044ea91332165a91a8ac") "NCON" "NCON" "ai_edge" "enabled"
    (ago 15%Z) 8%Z None
    (jetson "NVIDIA Jetson Orin Nano" "8GB/4GB LPDDR5" "RJ45 1 x Gigabit Ethernet"
            "90(W) x 118(D) x 69(H) mm" "750g")
    ["Building Monitoring and Management"; "Optimize Energy Usage";
     "Urban Infrastructure Management"].

Definition pson (ago : Z -> string) : device :=
  Device (Some "device-67f4044ea91332165a91a8ae") "PSON" "PSON" "ai_edge" "enabled"
    (ago 60%Z) 8%Z None
    (jetson "NVIDIA Jetson Orin Nano" "8GB/4GB LPDDR5" "RJ45 2 x Gigabit Ethernet"
            "94(W) x 157(L) x 77.75 (H) mm" "888g")
    ["Industrial Quality Inspection"; "Manufacturing Optimization";
     "Predictive Maintenance"].

Definition psox (ago : Z -> string) : device :=
  Device (Some "device-67f4044ea91332165a91a8af") "PSOX" "PSOX" "ai_edge" "disabled"
    (ago 120%Z) 16%Z None
    (jetson "NVIDIA Jetson Orin NX" "16GB/8GB LPDDR5" "RJ45 2 x Gigabit Ethernet"
            "94(W) x 157(L) x 77.75 (H) mm" "888g")
    ["Smart Surveillance"; "Industrial Quality Inspection"; "Retail Analytics";
     "Traffic Violation Detection"].

Definition devices (ago : Z -> string) : list device :=
  [ncox ago; ncon ago; pson ago; psox ago].

(** the body of the loop of [get_devices]: [draw] holds the two numbers
    drawn for the device, [random.randint(1, 30)] and
    [random.randint(-5, 5)] *)
Definition refresh (ago : Z -> string) (draw : Z * Z) (d : device) : device :=
  if String.eqb (status d) "enabled" then
    Device (id d) (name d) (model d) (type d) (status d)
      (ago draw.1)
      (Z.max 0 (Z.min 100 (performance d + draw.2)))%Z
      (tag d) (specs d) (applications d)
  else d.

(** GET /api/devices: the list after the loop, the new value of the
    global [devices]; its copy through JSON is the body sent.  [draws i]
    are the numbers drawn for the device at position [i] *)
Definition get_devices (ago : Z -> string) (draws : nat -> Z * Z)
    (devices : list device) : list device :=
  imap (fun i d => refresh ago (draws i) d) devices.

(** a series of requests, each with its clock and its draws *)
Definition requests (rs : list ((Z -> string) * (nat -> Z * Z)))
    (devices : list device) : list device :=
  foldl (fun ds r => get_devices r.1 r.2 ds) devices rs.

(** the decimal digits of [n], ahead of [acc]; enough [fuel] is one more
    than the binary logarithm of [n] *)
Fixpoint decimal (fuel : nat) (n : Z) (acc : list ascii) : list ascii :=
  match fuel with
  | 0 => acc
  | S fuel' =>
      let acc' := ascii_of_N (Z.to_N (48 + n mod 10)%Z) :: acc in
      if (n <? 10)%Z then acc' else decimal fuel' (n / 10)%Z acc'
  end.

(** [str(z)], and [f"{z}"], for an integer: a minus sign if it is
    negative, then the digits of its absolute value; [ValueError] when
    they are more than the limit allows *)
Definition str_int (z : Z) : result string :=
  let digits := decimal (S (Z.to_nat (Z.log2 (Z.abs z)))) (Z.abs z) [] in
  if Str.within_limit digits
  then Ok (string_of_list_ascii (if (z <? 0)%Z then "-"%char :: digits else digits))
  else Raise ValueError.

(** [specs[k]] and [specs.get(k, None)] *)
Definition spec (d : device) (k : string) : result value :=
  match specs d !! k with Some s => Ok (VStr s) | None => Raise KeyError end.
Definition spec_or_none (d : device) (k : string) : value :=
  match specs d !! k with Some s => VStr s | None => VNone end.

(** the document [insert_mock_devices.py] builds for a device, its values
    computed in the order of the keys *)
Definition mock_document (d : device) : result dict :=
  processor ← spec d "processor";
  performance_text ← str_int (performance d);
  memory ← spec d "memory";
  storage ← spec d "storage";
  os ← spec d "operating_system";
  Ok (list_to_map
        [("deviceName", VStr (name d));
         ("Category", VStr "Specification");
         ("Processor", processor);
         ("AI Performance", VStr (performance_text ++ " TOPS"));
         ("Memory", memory);
         ("Storage", storage);
         ("OS", os);
         ("Ethernet", spec_or_none d "networking");
         ("I/O", spec_or_none d "io_interfaces");
         ("Dimension", spec_or_none d "dimensions");
         ("Weight", spec_or_none d "weight");
         ("Power", spec_or_none d "power_input");
         ("Operating Tempeture", spec_or_none d "operating_temperature");
         ("tag", match tag d with Some t => VStr t | None => VNone end);
         ("status", VStr (status d));
         ("lastSeen", VStr (lastSeen d));
         ("applications", VList (VStr <$> applications d))]).

(** the loop of the script: each document is inserted under the identifier
    the store generates, [fresh i] for the device at position [i]; an
    exception ends the script, what was inserted stays *)
Fixpoint insert_mock_devices (fresh : nat -> string) (i : nat) (devices : list device)
    (collection : list document) : list document :=
  match devices with
  | [] => collection
  | d :: rest =>
      match mock_document d with
      | Ok doc => insert_mock_devices fresh (S i) rest (collection ++ [Document (fresh i) doc])
      | Raise _ => collection
      end
  end.

End Mock.

(** ** Seeding the application links: [backend/init_mongodb.py] *)

Module Seed.
Import Store.

Local Open Scope string_scope.

Definition type_mapping : gmap string string :=
  list_to_map
    [("Smart Surveillance", "surveillance");
     ("Industrial Quality Inspection", "industrial");
     ("Building Monitoring and Management", "building");
     ("Optimize Energy Usage", "energy");
     ("Urban Infrastructure Management", "infrastructure");
     ("Manufacturing Optimization", "manufacturing");
     ("Predictive Maintenance", "maintenance");
     ("Retail Analytics", "retail");
     ("Traffic Violation Detection", "traffic");
     ("Customer Behavior Analytics", "retail");
     ("Autonomous Mobile Robot (AMR)", "robotics");
     ("Real-Time Navigation", "navigation");
     ("Automation Efficiency", "automation");
     ("Fleet Management", "fleet");
     ("Autonomous Driving", "automotive");
     ("Healthcare and Medical", "healthcare");
     ("Industrial Automation", "industrial");
     ("Real-Time AI Computation", "computation")].

Definition description_mapping : gmap string string :=
  list_to_map
    [("Smart Surveillance", "Advanced video analytics for security monitoring");
     ("Industrial Quality Inspection", "AI-powered manufacturing quality control");
     ("Building Monitoring and Management", "Intelligent building systems and security");
     ("Optimize Energy Usage", "Smart energy management and optimization");
     ("Urban Infrastructure Management", "City infrastructure monitoring and control");
     ("Manufacturing Optimization", "Enhanced manufacturing process control");
     ("Predictive Maintenance", "AI-driven equipment maintenance prediction");
     ("Retail Analytics", "Customer behavior and retail performance analysis");
     ("Traffic Violation Detection", "Automated traffic monitoring and enforcement");
     ("Customer Behavior Analytics", "In-depth analysis of customer patterns and behaviors");
     ("Autonomous Mobile Robot (AMR)", "Self-navigating robots for industrial applications");
     ("Real-Time Navigation", "Dynamic path planning and obstacle avoidance");
     ("Automation Efficiency", "Optimized automation systems for improved productivity");
     ("Fleet Management", "Real-time vehicle tracking and logistics optimization");
     ("Autonomous Driving", "Self-driving vehicle control and navigation");
     ("Healthcare and Medical", "Medical imaging and healthcare process automation");
     ("Industrial Automation", "Advanced industrial process automation");
     ("Real-Time AI Computation", "High-performance AI processing at the edge")].

(** a value that can be a dictionary key: lists and mappings cannot *)
Definition hashable (v : value) : bool :=
  match v with
  | VList _ | VDict _ => false
  | _ => true
  end.

(** [mapping.get(key, dflt)] for a mapping whose keys are strings *)
Definition get_str (mapping : gmap string string) (key : value) (dflt : string)
    : result string :=
  match key with
  | VStr s => Ok (default dflt (mapping !! s))
  | _ => if hashable key then Ok dflt else Raise TypeError
  end.

Definition get_app_type (app_name : value) : result string :=
  get_str type_mapping app_name "other".

Definition get_app_description (app_name : value) : result string :=
  get_str description_mapping app_name "Advanced AI-powered application".

(** [f == g] for two floats *)
Definition float_eq (f g : spec_float) : bool :=
  match f, g with
  | S754_zero _, S754_zero _ => true
  | S754_infinity s, S754_infinity t => Bool.eqb s t
  | S754_finite s m e, S754_finite t n d =>
      Bool.eqb s t &&
      (Z.pos m * 2 ^ (e - Z.min e d) =? Z.pos n * 2 ^ (d - Z.min e d))%Z
  | _, _ => false
  end.

(** [f == z] for a float and an integer *)
Definition float_eq_int (f : spec_float) (z : Z) : bool :=
  match f with
  | S754_zero _ => (z =? 0)%Z
  | S754_finite s m e =>
      let a := (if s then - Z.pos m else Z.pos m)%Z in
      if (0 <=? e)%Z then (a * 2 ^ e =? z)%Z else (a =? z * 2 ^ (- e))%Z
  | _ => false
  end.

Definition as_int (v : value) : option Z :=
  match v with
  | VBool b => Some (Z.b2z b)
  | VInt z => Some z
  | _ => None
  end.

(** [a == b] for two keys: numbers by value, the rest by type and content *)
Definition key_eq (a b : value) : bool :=
  match a, b with
  | VNone, VNone => true
  | VStr s, VStr t => String.eqb s t
  | VOid s, VOid t => String.eqb s t
  | VFloat f, VFloat g => float_eq f g
  | VFloat f, _ => match as_int b with Some z => float_eq_int f z | None => false end
  | _, VFloat g => match as_int a with Some z => float_eq_int g z | None => false end
  | _, _ => match as_int a, as_int b with
            | Some y, Some z => (y =? z)%Z
            | _, _ => false
            end
  end.

(** [{device.get('deviceName', ''): str(device['_id']) for device in
    device_specs}]: the bindings in the order they are made, a later one
    standing for an earlier one with an equal key *)
Definition name_to_id (device_specs : list document) : result (list (value * string)) :=
  for_each (fun device =>
              let device_name := Py.get_or (to_dict device) "deviceName" (VStr "") in
              if hashable device_name then Ok (device_name, _id device)
              else Raise TypeError)
           device_specs.

(** [device_name_to_id.get(device_name)] *)
Definition lookup_name (device_name_to_id : list (value * string)) (device_name : value)
    : result (option string) :=
  if hashable device_name
  then Ok (snd <$> List.find (fun kv => key_eq kv.1 device_name) (rev device_name_to_id))
  else Raise TypeError.

(** one entry of the stored ['applications'] *)
Definition application_entry (app_name : value) : result value :=
  type ← get_app_type app_name;
  description ← get_app_description app_name;
  Ok (VDict (list_to_map [("name", app_name); ("type", VStr type);
                          ("description", VStr description)])).

(** one pass of the loop of [init_applications]: the document to insert
    under the identifier [oid], if the device name is known *)
Definition seed_one (device_name_to_id : list (value * string)) (oid : string)
    (app_data : value) : result (option document) :=
  device_name ← Py.subscript app_data "deviceName";
  device_id ← lookup_name device_name_to_id device_name;
  match device_id with
  | Some device_id =>
      if String.eqb device_id "" then Ok None
      else
        names ← Py.subscript app_data "applications" ≫= Py.iter;
        applications ← for_each application_entry names;
        Ok (Some (Document oid
                    (list_to_map [("device_id", VStr device_id);
                                  ("deviceName", device_name);
                                  ("applications", VList applications)])))
  | None => Ok None
  end.

(** the loop: [links] is the collection so far; the store generates the
    identifier [fresh n] for the [n]-th document inserted; an exception
    ends the loop and leaves the collection as it is *)
Fixpoint seed_links (device_name_to_id : list (value * string)) (fresh : nat -> string)
    (entries : list value) (links : list document) : list document :=
  match entries with
  | [] => links
  | app_data :: rest =>
      match seed_one device_name_to_id (fresh (length links)) app_data with
      | Ok (Some link) => seed_links device_name_to_id fresh rest (links ++ [link])
      | Ok None => seed_links device_name_to_id fresh rest links
      | Raise _ => links
      end
  end.

(** [init_applications()]: the store afterwards.  [loaded] is what opening
    and parsing the JSON file gives.  Every exception is caught and
    printed; what was written before it stays. *)
Definition init_applications (db : database) (loaded : result value)
    (fresh : nat -> string) : database :=
  match (device_name_to_id ← name_to_id (device_specs_collection db);
         apps_data ← loaded;
         Ok (device_name_to_id, apps_data)) with
  | Raise _ => db
  | Ok (device_name_to_id, apps_data) =>
      (* delete_many({}) *)
      match Py.iter apps_data with
      | Ok entries =>
          Database (device_specs_collection db)
                   (seed_links device_name_to_id fresh entries [])
      | Raise _ => Database (device_specs_collection db) []
      end
  end.

End Seed.

(** ** Gathering the files to archive: [zip_backup] of [app_backup_v2.py] *)

Module Backup.

Local Open Scope string_scope.

(** the project directory: files and folders, in the order they are listed *)
Inductive node : Type :=
| File (name : string)
| Dir (name : string) (children : list node).

Definition EXCLUDE_DIRS : list string := ["backups"; "venv"; "env"; "ENV"].

Definition filenames (children : list node) : list string :=
  flat_map (fun n => match n with File f => [f] | Dir _ _ => [] end) children.

(** [os.walk] below a folder: each folder, top-down, as the path to it from
    the top and the files it holds *)
Fixpoint walk_node (path : list string) (n : node) : list (list string * list string) :=
  match n with
  | File _ => []
  | Dir name children =>
      (path ++ [name], filenames children)%list
        :: flat_map (walk_node (path ++ [name])%list) children
  end.

(** [os.walk('.')] *)
Definition walk (top : list node) : list (list string * list string) :=
  ([], filenames top) :: flat_map (walk_node []) top.

(** [set(os.path.normpath(foldername).split(os.sep))] *)
Definition folder_parts (path : list string) : list string :=
  match path with
  | [] => ["."]
  | _ => path
  end.

Definition excluded (path : list string) : bool :=
  existsb (fun part => bool_decide (part ∈ EXCLUDE_DIRS)) (folder_parts path).

(** [files_to_zip]: the relative path of each file, by its components *)
Definition files_to_zip (top : list node) : list (list string) :=
  flat_map (fun folder : list string * list string =>
              if excluded folder.1 then []
              else map (fun filename => (folder.1 ++ [filename])%list) folder.2)
           (walk top).

End Backup.

(** ** Choosing the backup to restore: [find_latest_backup] of [app_restore_v1.py] *)

Module Restore.

(** a stable sort by decreasing key, as [list.sort(key=..., reverse=True)]
    is: an entry goes ahead of the later entries with the same key *)
Fixpoint insert_desc {A : Type} (key : A -> Z) (x : A) (l : list A) : list A :=
  match l with
  | [] => [x]
  | y :: t => if (key y <=? key x)%Z then x :: l else y :: insert_desc key x t
  end.

Definition sort_desc {A : Type} (key : A -> Z) (l : list A) : list A :=
  foldr (insert_desc key) [] l.

(** [find_latest_backup(backup_folder)].  [folder] lists the entries of the
    folder with their modification times, [None] if it is not a
    directory; [is_zip] tells the names the pattern "*.zip" matches. *)
Definition find_latest_backup (is_zip : string -> bool)
    (folder : option (list (string * Z))) : option (string * Z) :=
  match folder with
  | None => None
  | Some entries =>
      let zip_files := List.filter (fun f : string * Z => is_zip f.1) entries in
      match zip_files with
      | [] => None
      | _ => head (sort_desc snd zip_files)
      end
  end.

End Restore.

(** ** Notions used to state the properties of the scripts *)

Module Seeded.
Import Store App Shape Seed.

Local Open Scope string_scope.

(** [device.get('deviceName', '')] on a stored specification *)
Definition name_of (doc : document) : value :=
  Py.get_or (to_dict doc) "deviceName" (VStr "").

(** what the loop of [init_applications] inserts: a link whose entries are
    named and whose ['device_id'] is one of the identifiers bound in the
    name table *)
Definition sound_link (m : list (value * string)) (link : document) : Prop :=
  link_well_formed (to_dict link) = true /\
  exists device_id, to_dict link !! "device_id" = Some (VStr device_id) /\
                    device_id <> "" /\ In device_id (map snd m).

(** a well-typed entry of the JSON file: a device name and the names of its
    applications *)
Definition app_item (it : string * list string) : value :=
  VDict (list_to_map [("deviceName", VStr it.1); ("applications", VList (VStr <$> it.2))]).

(** the stored entry of an application name *)
Definition entry_of (a : string) : dict :=
  list_to_map
    [("name", VStr a); ("type", VStr (default "other" (type_mapping !! a)));
     ("description",
      VStr (default "Advanced AI-powered application" (description_mapping !! a)))].

(** the fields of the link stored for an entry of the JSON file *)
Definition link_fields (device_id : string) (it : string * list string) : dict :=
  list_to_map [("device_id", VStr device_id); ("deviceName", VStr it.1);
               ("applications", VList ((fun a => VDict (entry_of a)) <$> it.2))].

End Seeded.

Module Tree.
Import Backup.

Local Open Scope string_scope.

(** the folder reached from [top] by [path], by its entries *)
Inductive folder_at : list node -> list string -> list node -> Prop :=
| folder_here top : folder_at top [] top
| folder_below top name sub path children :
    In (Dir name sub) top -> folder_at sub path children ->
    folder_at top (name :: path) children.

(** the file [f] lies in the folder reached from [top] by [path] *)
Definition has_file (top : list node) (path : list string) (f : string) : Prop :=
  exists children, folder_at top path children /\ In (File f) children.

(** induction on a node, with the property at hand for each entry of a
    folder *)
Fixpoint node_induction (P : node -> Prop)
    (HF : forall f, P (File f))
    (HD : forall name children, Forall P children -> P (Dir name children))
    (n : node) : P n :=
  match n with
  | File f => HF f
  | Dir name children =>
      HD name children
         ((fix all (l : list node) : Forall P l :=
             match l with
             | [] => @List.Forall_nil node P
             | x :: t => @List.Forall_cons node P x t (node_induction P HF HD x) (all t)
             end) children)
  end.

End Tree.

(** ** Data for the examples of the scripts *)

Module Fixture.
Import Store Seeded.

Local Open Scope string_scope.

(** a clock that always reads the same and draws that always push the
    performance up by five *)
Definition ago (m : Z) : string := "2025-01-01T00:00:00".
Definition draws (i : nat) : Z * Z := (7, 5)%Z.
Definition request : (Z -> string) * (nat -> Z * Z) := (ago, draws).

(** the JSON file of the seeding script, with one device the store knows
    and one it does not *)
Definition items : list (string * list string) :=
  [("NCOX", ["Smart Surveillance"; "Retail Analytics"]); ("NCOZ", ["Fleet Management"])].

Definition fresh (n : nat) : string := Sample.a_link_oid.

End Fixture.

(** ** Facts about characters and integer literals *)

Section CharFacts.
Import Str.

Ltac by_cases_on a :=
  destruct a as [[] [] [] [] [] [] [] []]; vm_compute; try reflexivity; try discriminate;
  intros; try discriminate; try reflexivity.

Lemma decimal_not_space a : isdecimal a = true -> isspace a = false.
Proof. by_cases_on a. Qed.

Lemma decimal_not_t a : isdecimal a = true -> Ascii.eqb (lower_char a) "t" = false.
Proof. by_cases_on a. Qed.

Lemma space_not_t a : isspace a = true -> Ascii.eqb (lower_char a) "t" = false.
Proof. by_cases_on a. Qed.

Lemma digit_val_range a : isdecimal a = true -> (0 <= digit_val a <= 9)%Z.
Proof. by_cases_on a; split; discriminate. Qed.

Lemma lower_char_idem a : lower_char (lower_char a) = lower_char a.
Proof. by_cases_on a. Qed.

Lemma lower_idem s : lower (lower s) = lower s.
Proof. induction s as [|a s IH]; simpl; [reflexivity|]. by rewrite lower_char_idem, IH. Qed.


Lemma fold_digits_nonneg l acc :
  Forall (fun a => isdecimal a = true) l -> (0 <= acc)%Z ->
  (0 <= fold_left (fun acc a => 10 * acc + digit_val a) l acc)%Z.
Proof.
  intros Hl. revert acc. induction Hl as [|a l Ha _ IH]; intros acc Hacc; simpl; [done|].
  apply IH. pose proof (digit_val_range a Ha). lia.
Qed.

Lemma int_digits_nonneg l :
  Forall (fun a => isdecimal a = true) l -> (0 <= int_digits l)%Z.
Proof. intros Hl. by apply fold_digits_nonneg. Qed.

Lemma int_body_digits l prev acc :
  Forall (fun a => isdecimal a = true) l -> (l <> [] \/ prev = true) ->
  int_body prev acc l = Some (fold_left (fun acc a => 10 * acc + digit_val a)%Z l acc).
Proof.
  intros Hl. revert prev acc.
  induction Hl as [|a l Ha _ IH]; intros prev acc Hne; simpl.
  - destruct Hne as [Hne | Hne]; [done | by rewrite Hne].
  - rewrite Ha. apply IH. by right.
Qed.

Lemma lstrip_decimal a t : isdecimal a = true -> lstrip (a :: t) = a :: t.
Proof. intros Ha. simpl. by rewrite (decimal_not_space a Ha). Qed.

Lemma strip_digits l :
  Forall (fun a => isdecimal a = true) l -> strip l = l.
Proof.
  intros Hl. unfold strip.
  assert (Hs : forall k, Forall (fun a => isdecimal a = true) k -> lstrip k = k).
  { intros [|a k] Hk; [done|]. apply lstrip_decimal. by inversion Hk. }
  rewrite (Hs l Hl), Hs, rev_involutive; [done|]. by apply Forall_rev.
Qed.

Lemma digits_no_sign l :
  Forall (fun a => isdecimal a = true) l ->
  match l with
  | "-"%char :: t => Z.opp <$> int_body false 0 t
  | "+"%char :: t => int_body false 0 t
  | l => int_body false 0 l
  end = int_body false 0 l.
Proof. intros [|a t Ha _]; [done|]. revert Ha. by_cases_on a. Qed.

Lemma filter_digits l :
  Forall (fun a => isdecimal a = true) l -> List.filter isdecimal l = l.
Proof. induction 1 as [|a l Ha _ IH]; cbn [List.filter]; [done|]. by rewrite Ha, IH. Qed.

(** [int] of a run of digits is its decimal value when the run is within
    the limit, and [ValueError] when it is not *)
Lemma int_of_digits l :
  l <> [] -> Forall (fun a => isdecimal a = true) l ->
  Py.int (VStr (string_of_list_ascii l)) = Steps.converted l.
Proof.
  intros Hne Hl. unfold Py.int, int_literal, Steps.converted. cbv zeta.
  rewrite list_ascii_of_string_of_list_ascii, (strip_digits l Hl), (filter_digits l Hl).
  rewrite (digits_no_sign l Hl).
  destruct (within_limit l); [|done].
  rewrite int_body_digits; [done..|by left].
Qed.

End CharFacts.

(** ** Facts about the matcher *)

Section RegexFacts.
Import Str Re Rules Steps.


Lemma number_split s : s = (number s).1 ++ (number s).2.
Proof.
  induction s as [|a t IH]; simpl; [done|].
  destruct (isdecimal a); simpl; [by f_equal | done].
Qed.

Lemma number_digits s : Forall (fun a => isdecimal a = true) (number s).1.
Proof.
  induction s as [|a t IH]; simpl; [constructor|].
  destruct (isdecimal a) eqn:Ha; simpl; [by constructor | constructor].
Qed.

Lemma skip_digit s : skip Digit s = (number s).2.
Proof.
  induction s as [|a t IH]; simpl; [done|].
  destruct (isdecimal a); simpl; done.
Qed.

Lemma skip_space s : skip Space s = lstrip s.
Proof.
  induction s as [|a t IH]; simpl; [done|].
  destruct (isspace a); simpl; done.
Qed.

Lemma take_number s : take (length s - length (number s).2) s = (number s).1.
Proof.
  rewrite (number_split s) at 1 3. rewrite length_app.
  replace (length (number s).1 + length (number s).2 - length (number s).2)
    with (length (number s).1) by lia.
  by rewrite take_app_length.
Qed.

(** the longest way comes first; every other way stops where [c] could
    have gone on *)
Lemma reps_shape c s :
  exists tl, reps c s = skip c s :: tl /\ Forall (starts_with c) tl.
Proof.
  induction s as [|a t (tl & IH & Htl)]; simpl.
  - by exists [].
  - destruct (accepts c a) eqn:Ha.
    + exists (tl ++ [a :: t]). rewrite IH. split; [done|].
      apply Forall_app. split; [done|]. by repeat constructor.
    + by exists [].
Qed.

Lemma carry_none l : map (carry None) l = l.
Proof.
  rewrite <- (map_id l) at 2. apply map_ext. intros [t g]. unfold carry. simpl.
  by destruct g.
Qed.

Lemma flat_map_nil {A B} (f : A -> list B) l :
  Forall (fun x => f x = []) l -> flat_map f l = [].
Proof. induction 1 as [|x l Hx _ IH]; simpl; [done|]. by rewrite Hx, IH. Qed.

Lemma run_Cat r1 r2 s :
  run (Cat r1 r2) s = flat_map (fun m1 : state => map (carry m1.2) (run r2 m1.1)) (run r1 s).
Proof. reflexivity. Qed.

Lemma run_One c s :
  run (One c) s = match s with
                  | a :: t => if accepts c a then [(t, None)] else []
                  | [] => []
                  end.
Proof. reflexivity. Qed.

Lemma run_Rep0 c s : run (Rep0 c) s = map (fun t => (t, None)) (reps c s).
Proof. reflexivity. Qed.

Lemma run_Group_Rep1 c s :
  run (Group (Rep1 c)) s =
  match s with
  | a :: t =>
      if accepts c a
      then map (fun u => (u, Some (take (length s - length u) s))) (reps c t)
      else []
  | [] => []
  end.
Proof.
  destruct s as [|a t]; [done|]. cbn [run].
  destruct (accepts c a); [|done]. by rewrite map_map.
Qed.

Lemma run_Maybe r s : run (Maybe r) s = (run r s ++ [(s, None)])%list.
Proof. reflexivity. Qed.

Lemma run_groupless r : forall s,
  groupless r = true -> Forall (fun m : state => m.2 = None) (run r s).
Proof.
  induction r as [|c|c|c|r1 IH1 r2 IH2|r IH|r IH]; intros s Hg; simpl in *.
  - by repeat constructor.
  - destruct s as [|a t]; [constructor|]. destruct (accepts c a); by repeat constructor.
  - apply Forall_map, Forall_true. done.
  - destruct s as [|a t]; [constructor|]. destruct (accepts c a); [|constructor].
    apply Forall_map, Forall_true. done.
  - apply andb_true_iff in Hg as [Hg1 Hg2].
    apply Forall_forall. intros m Hm.
    apply list_elem_of_In, in_flat_map in Hm as (m1 & Hm1 & Hm).
    apply in_map_iff in Hm as (m2 & <- & Hm2). unfold carry. simpl.
    pose proof (IH1 s Hg1) as F1. pose proof (IH2 m1.1 Hg2) as F2.
    rewrite Forall_forall in F1, F2.
    rewrite (F2 m2) by (by apply list_elem_of_In).
    apply F1. by apply list_elem_of_In.
  - apply Forall_app. split; [by apply IH | by repeat constructor].
  - discriminate.
Qed.

(** a literal text is matched in one way, letter case apart *)
Lemma run_word w r : forall s,
  run (word w r) s =
  match after_text (map lower_char (list_ascii_of_string w)) s with
  | Some s' => run r s'
  | None => []
  end.
Proof.
  induction w as [|c w IH]; intros s; [done|].
  cbn [word list_ascii_of_string map]. rewrite run_Cat, run_One.
  destruct s as [|a t]; [done|]. cbn [after_text accepts].
  rewrite Ascii.eqb_sym.
  destruct (Ascii.eqb (lower_char a) (lower_char c)); [|done].
  cbn [flat_map fst snd]. by rewrite app_nil_r, carry_none, IH.
Qed.

Lemma run_TOPS s :
  run (word "TOPS" Eps) s =
  match after_text (list_ascii_of_string "tops") s with
  | Some e => [(e, None)]
  | None => []
  end.
Proof. rewrite run_word. done. Qed.


(** [(\d+)] followed by something optional: the group takes every digit *)
Lemma run_number_maybe K s :
  groupless K = true ->
  match (number s).1 with
  | [] => run (Cat (Group (Rep1 Digit)) (Maybe K)) s = []
  | ds => exists rest tl, run (Cat (Group (Rep1 Digit)) (Maybe K)) s = (rest, Some ds) :: tl
  end.
Proof.
  intros HK. rewrite run_Cat, run_Group_Rep1. destruct s as [|a t]; [done|].
  pose proof (take_number (a :: t)) as Htake. revert Htake.
  cbn [number accepts]. destruct (isdecimal a) eqn:Ha; [|done]. cbn [fst snd]. intros Htake.
  destruct (reps_shape Digit t) as (tl & -> & _). rewrite skip_digit.
  cbn [map flat_map fst snd]. rewrite Htake, run_Maybe.
  pose proof (run_groupless K (number t).2 HK) as HF.
  destruct (run K (number t).2) as [|m ms]; cbn [app map]; unfold carry at 1; cbn [fst snd].
  - by eauto.
  - inversion HF as [|? ? Hm _]; subst. rewrite Hm. by eauto.
Qed.

(** [\s*TOPS]: the blanks are all taken, then the word must follow *)
Lemma run_blank_tops s :
  run (Cat (Rep0 Space) (word "TOPS" Eps)) s =
  match after_text (list_ascii_of_string "tops") (lstrip s) with
  | Some e => [(e, None)]
  | None => []
  end.
Proof.
  rewrite run_Cat, run_Rep0.
  destruct (reps_shape Space s) as (tl & -> & Htl). rewrite skip_space.
  cbn [map flat_map fst snd]. rewrite carry_none, flat_map_nil.
  - by rewrite app_nil_r, run_TOPS.
  - apply Forall_map. eapply Forall_impl; [exact Htl|]. intros [|a t] Hs; [done|].
    cbn [fst snd]. rewrite carry_none, run_TOPS. cbn [starts_with accepts] in Hs.
    cbn [list_ascii_of_string after_text]. by rewrite (space_not_t a Hs).
Qed.

Lemma blank_tops_after_digit a t :
  isdecimal a = true -> run (Cat (Rep0 Space) (word "TOPS" Eps)) (a :: t) = [].
Proof.
  intros Ha. rewrite run_blank_tops, (lstrip_decimal a t Ha).
  cbn [list_ascii_of_string after_text]. by rewrite (decimal_not_t a Ha).
Qed.

(** [(\d+)\s*TOPS]: only the whole number can be followed by the word *)
Lemma run_number_tops s :
  run (Cat (Group (Rep1 Digit)) (Cat (Rep0 Space) (word "TOPS" Eps))) s =
  match (number s).1 with
  | [] => []
  | ds => match after_text (list_ascii_of_string "tops") (lstrip (number s).2) with
          | Some e => [(e, Some ds)]
          | None => []
          end
  end.
Proof.
  rewrite run_Cat, run_Group_Rep1. destruct s as [|a t]; [done|].
  pose proof (take_number (a :: t)) as Htake. revert Htake.
  cbn [number accepts]. destruct (isdecimal a) eqn:Ha; [|done]. cbn [fst snd]. intros Htake.
  destruct (reps_shape Digit t) as (tl & -> & Htl). rewrite skip_digit.
  cbn [map flat_map fst snd]. rewrite Htake, flat_map_nil.
  - rewrite app_nil_r, run_blank_tops. destruct (after_text _ _); done.
  - apply Forall_map. eapply Forall_impl; [exact Htl|].
    intros [|b u] Hs; [done|]. cbn [fst snd].
    by rewrite (blank_tops_after_digit b u Hs).
Qed.

(** [search] scans for the leftmost place where [run] succeeds *)
Lemma search_leftmost {X} r (here : list ascii -> option X) (P : state -> X -> Prop) :
  (forall s, match run r s with
             | [] => here s = None
             | m :: _ => exists x, here s = Some x /\ P m x
             end) ->
  forall s, match search r s with
            | None => leftmost here s = None
            | Some m => exists x, leftmost here s = Some x /\ P m x
            end.
Proof.
  intros Hrun s. induction s as [|a t IH]; cbn [search leftmost].
  - pose proof (Hrun []) as Hu.
    destruct (run r []) as [|m ms]; [by rewrite Hu|].
    destruct Hu as (x & -> & HP). eauto.
  - pose proof (Hrun (a :: t)) as Hu.
    destruct (run r (a :: t)) as [|m ms].
    + by rewrite Hu.
    + destruct Hu as (x & -> & HP). eauto.
Qed.

End RegexFacts.

(** ** The three patterns against the rules *)

Section PatternFacts.
Import Str Re Rules Steps.


Lemma number_run a t :
  isdecimal a = true -> digit_run (a :: (number t).1).
Proof.
  intros Ha. split; [done|]. constructor; [done|]. apply number_digits.
Qed.

Lemma search_up_to s :
  match search App.up_to_re s with
  | None => leftmost up_to_digits s = None
  | Some m => exists ds, leftmost up_to_digits s = Some ds /\ reads m ds
  end.
Proof.
  apply search_leftmost. clear s. intros s.
  unfold App.up_to_re, up_to_digits. rewrite run_word.
  change (map lower_char (list_ascii_of_string "Up to ")) with (list_ascii_of_string "up to ").
  destruct (after_text _ s) as [l|]; [|done].
  pose proof (run_number_maybe (Cat (Rep0 Space) (word "TOPS" Eps)) l eq_refl) as Hrun.
  pose proof (number_digits l) as Hds.
  destruct (number l) as [[|d ds] rest]; cbn [fst snd] in *.
  - by rewrite Hrun.
  - destruct Hrun as (e & tl & ->). eexists; split; [done|]. by repeat split.
Qed.

Lemma search_tops s :
  match search App.tops_re s with
  | None => leftmost tops_digits s = None
  | Some m => exists ds, leftmost tops_digits s = Some ds /\ reads m ds
  end.
Proof.
  apply search_leftmost. clear s. intros s.
  unfold App.tops_re, tops_digits. rewrite run_number_tops.
  pose proof (number_digits s) as Hds.
  destruct (number s) as [[|d ds] rest]; cbn [fst snd] in *; [done|].
  destruct (after_text _ (lstrip rest)) as [e|]; [|done].
  eexists; split; [done|]. by repeat split.
Qed.

Lemma leftmost_fmap {X Y} (f : X -> Y) (here : list ascii -> option X) s :
  leftmost (fun t => f <$> here t) s = f <$> leftmost here s.
Proof.
  induction s as [|a t IH]; cbn [leftmost]; [by destruct (here [])|].
  destruct (here (a :: t)); [done|]. exact IH.
Qed.

Lemma leftmost_ext {X} (here here' : list ascii -> option X) s :
  (forall t, here t = here' t) -> leftmost here s = leftmost here' s.
Proof.
  intros Hext. induction s as [|a t IH]; cbn [leftmost]; rewrite Hext; [done|].
  by rewrite IH.
Qed.

(** the rules read the value of the digits found at the same place *)
Lemma leftmost_up_to_here s :
  leftmost up_to_here s = int_digits <$> leftmost up_to_digits s.
Proof.
  rewrite <- leftmost_fmap. apply leftmost_ext. intros t. unfold up_to_here, up_to_digits.
  destruct (after_text _ t) as [r|]; [|done]. by destruct (number r) as [[|d ds] rest].
Qed.

Lemma leftmost_tops_here s :
  leftmost tops_here s = int_digits <$> leftmost tops_digits s.
Proof.
  rewrite <- leftmost_fmap. apply leftmost_ext. intros t. unfold tops_here, tops_digits.
  destruct (number t) as [[|d ds] rest]; [done|]. by destruct (after_text _ _).
Qed.

Lemma digit_runs_number s : forall cur,
  digit_runs cur s =
  match (number s).2 with
  | [] => emit (cur ++ (number s).1) []
  | _ :: rest => emit (cur ++ (number s).1) (digit_runs [] rest)
  end.
Proof.
  induction s as [|a t IH]; intros cur; cbn [digit_runs number].
  - cbn [fst snd]. rewrite app_nil_r. by destruct cur.
  - destruct (isdecimal a); cbn [fst snd].
    + rewrite IH, <- app_assoc. done.
    + rewrite app_nil_r. by destruct cur.
Qed.

Lemma number_rest s b r : (number s).2 = b :: r -> isdecimal b = false.
Proof.
  induction s as [|a t IH]; cbn [number]; [done|].
  destruct (isdecimal a) eqn:Ha; cbn [snd]; [done|].
  intros [= -> ->]. done.
Qed.

Lemma findall_from_nil fuel r : run r [] = [] -> findall_from fuel r [] = [].
Proof. intros Hr. destruct fuel; [done|]. cbn [findall_from]. by rewrite Hr. Qed.

(** [re.findall(r'\d+', s)] lists the digit runs of [s] *)
Lemma findall_digits fuel : forall s,
  length s < fuel -> findall_from fuel App.digits_re s = digit_runs [] s.
Proof.
  unfold App.digits_re.
  induction fuel as [|fuel IH]; intros s Hlen; [lia|].
  cbn [findall_from]. destruct s as [|a t]; [done|].
  cbn [run accepts digit_runs]. cbn [length] in Hlen.
  destruct (isdecimal a) eqn:Ha.
  - destruct (reps_shape Digit t) as (tl & -> & _). rewrite skip_digit.
    cbn [map fst]. cbn [app].
    pose proof (take_number (a :: t)) as Htake. cbn [number] in Htake.
    rewrite Ha in Htake. cbn [fst snd] in Htake. rewrite Htake.
    pose proof (number_split t) as Hsplit. apply (f_equal length) in Hsplit.
    rewrite length_app in Hsplit.
    replace (length (a :: t) - length (number t).2) with (S (length (number t).1))
      by (cbn [length]; lia).
    rewrite (digit_runs_number t [a]). cbn [app].
    destruct (number t).2 as [|b rest] eqn:Hrest.
    + by rewrite findall_from_nil.
    + cbn [emit]. f_equal. rewrite IH by (cbn [length] in *; lia).
      cbn [digit_runs]. by rewrite (number_rest t b rest Hrest).
  - apply IH. lia.
Qed.

Lemma digit_runs_are_runs s : forall cur,
  Forall (fun a => isdecimal a = true) cur -> Forall digit_run (digit_runs cur s).
Proof.
  induction s as [|a t IH]; intros cur Hcur; cbn [digit_runs].
  - destruct cur; [constructor|]. constructor; [by split | constructor].
  - destruct (isdecimal a) eqn:Ha.
    + apply IH, Forall_app. split; [done|]. constructor; [done | constructor].
    + destruct cur; [by apply IH|]. constructor; [by split | by apply IH].
Qed.

Lemma for_each_int_digits l :
  Forall digit_run l ->
  for_each (fun n => Py.int (VStr (string_of_list_ascii n))) l = for_each converted l.
Proof.
  induction 1 as [|ds l [Hne Hds] _ IH]; [done|].
  cbn [for_each]. by rewrite (int_of_digits ds Hne Hds), IH.
Qed.

Lemma for_each_converted l :
  forallb within_limit l = true -> for_each converted l = Ok (map int_digits l).
Proof.
  induction l as [|ds l IH]; [done|]. cbn [forallb for_each map].
  intros [Hds Hl]%andb_true_iff.
  assert (converted ds = Ok (int_digits ds)) as -> by (unfold converted; by rewrite Hds).
  cbn [mbind result_bind]. by rewrite (IH Hl).
Qed.

Lemma fold_max_largest l : forall x,
  (0 <= x)%Z -> fold_left Z.max l x = Z.max x (largest l).
Proof.
  induction l as [|y l IH]; intros x Hx; cbn [fold_left largest fold_right]; [lia|].
  rewrite IH by lia. fold (largest l). lia.
Qed.

Lemma largest_nonneg l : (0 <= largest l)%Z.
Proof. induction l as [|y l IH]; cbn [largest fold_right]; [done|]. fold (largest l). lia. Qed.

Lemma reads_int m ds : reads m ds -> Py.int (group1 m) = converted ds.
Proof.
  intros (Hg & Hne & Hds). unfold group1. rewrite Hg. by apply int_of_digits.
Qed.

(** The extraction on a text, by the digits the rules read: [int] is
    applied to the digits of the first rule that applies, and to every
    run of digits when it is the third. *)
Lemma performance_text s :
  App.performance (VStr s) =
  match leftmost up_to_digits (list_ascii_of_string s) with
  | Some ds => p ← converted ds; Ok (App.Continue p)
  | None =>
      match leftmost tops_digits (list_ascii_of_string s) with
      | Some ds => p ← converted ds; Ok (App.Continue p)
      | None =>
          match digit_runs [] (list_ascii_of_string s) with
          | [] => Ok (App.Through 0%Z)
          | runs => ints ← for_each converted runs; p ← Py.max ints; Ok (App.Continue p)
          end
      end
  end.
Proof.
  cbn [App.performance]. set (text := list_ascii_of_string s).
  pose proof (search_up_to text) as H1.
  destruct (search App.up_to_re text) as [m|].
  { destruct H1 as (ds & -> & Hr). by rewrite (reads_int m ds Hr). }
  rewrite H1. pose proof (search_tops text) as H2.
  destruct (search App.tops_re text) as [m|].
  { destruct H2 as (ds & -> & Hr). by rewrite (reads_int m ds Hr). }
  rewrite H2. unfold findall. rewrite findall_digits by lia.
  pose proof (digit_runs_are_runs text [] (List.Forall_nil _)) as Hruns.
  destruct (digit_runs [] text) as [|ds l]; [done|].
  by rewrite (for_each_int_digits _ Hruns).
Qed.

(** *** Runs within the limit *)

Lemma within_limit_tail a ds : within_limit (a :: ds) = true -> within_limit ds = true.
Proof. unfold within_limit. cbn [length]. rewrite !Z.leb_le. lia. Qed.

Lemma emit_within ds l :
  forallb within_limit (emit ds l) = true <->
  within_limit ds = true /\ forallb within_limit l = true.
Proof.
  destruct ds as [|d ds]; cbn [emit forallb].
  - split; [by intros ->|by intros [_ ->]].
  - apply andb_true_iff.
Qed.

Lemma runs_after a t :
  forallb within_limit (digit_runs [] (a :: t)) = true ->
  forallb within_limit (digit_runs [] t) = true.
Proof.
  cbn [digit_runs app]. destruct (isdecimal a); [|done].
  rewrite (digit_runs_number t [a]), (digit_runs_number t []). cbn [app].
  destruct (number t).2 as [|b rest]; rewrite !emit_within;
    intros [Hds Hl]; (split; [by eapply within_limit_tail | done]).
Qed.

Lemma runs_tail l s :
  tail_of l s -> forallb within_limit (digit_runs [] s) = true ->
  forallb within_limit (digit_runs [] l) = true.
Proof.
  intros [p ->]. induction p as [|a p IH]; [done|]. cbn [app].
  intros H. by apply IH, (runs_after a).
Qed.

Lemma number_within s :
  forallb within_limit (digit_runs [] s) = true -> within_limit (number s).1 = true.
Proof.
  rewrite (digit_runs_number s []). cbn [app].
  destruct (number s).2; rewrite emit_within; by intros [? _].
Qed.

Lemma tail_of_refl s : tail_of s s.
Proof. by exists []. Qed.

Lemma tail_of_trans l m s : tail_of l m -> tail_of m s -> tail_of l s.
Proof. intros [p ->] [q ->]. exists (q ++ p)%list. by rewrite app_assoc. Qed.

Lemma after_text_tail w : forall s r, after_text w s = Some r -> tail_of r s.
Proof.
  induction w as [|c w IH]; intros s r; cbn [after_text].
  - intros [= ->]. apply tail_of_refl.
  - destruct s as [|a t]; [done|]. destruct (Ascii.eqb _ c); [|done].
    intros Hr. destruct (IH t r Hr) as [p ->]. by exists (a :: p).
Qed.

Lemma leftmost_tail {X} (here : list ascii -> option X) s x :
  leftmost here s = Some x -> exists l, tail_of l s /\ here l = Some x.
Proof.
  induction s as [|a t IH]; cbn [leftmost].
  - destruct (here []) eqn:E; [|done]. intros [= <-]. exists []. split; [apply tail_of_refl|done].
  - destruct (here (a :: t)) eqn:E.
    + intros [= <-]. exists (a :: t). split; [apply tail_of_refl|done].
    + intros H. destruct (IH H) as (l & [p ->] & Hl). exists l. split; [by exists (a :: p)|done].
Qed.

(** in a text whose runs are within the limit, so are the digits the
    first two rules read *)
Lemma up_to_within s ds :
  forallb within_limit (digit_runs [] s) = true ->
  leftmost up_to_digits s = Some ds -> within_limit ds = true.
Proof.
  intros Hs Hleft. apply leftmost_tail in Hleft as (l & Hl & Hhere).
  unfold up_to_digits in Hhere. destruct (after_text _ l) as [r|] eqn:Hr; [|done].
  apply after_text_tail in Hr.
  pose proof (number_within r (runs_tail r s (tail_of_trans _ _ _ Hr Hl) Hs)) as Hn.
  destruct (number r) as [[|d n] rest]; [done|]. by injection Hhere as <-.
Qed.

Lemma tops_within s ds :
  forallb within_limit (digit_runs [] s) = true ->
  leftmost tops_digits s = Some ds -> within_limit ds = true.
Proof.
  intros Hs Hleft. apply leftmost_tail in Hleft as (l & Hl & Hhere).
  unfold tops_digits in Hhere.
  pose proof (number_within l (runs_tail l s Hl Hs)) as Hn.
  destruct (number l) as [[|d n] rest]; [done|].
  destruct (after_text _ _); [|done]. by injection Hhere as <-.
Qed.

(** On every value but an infinite float and a text with a run of digits
    beyond the limit, the extraction is the rules'; what it derives from
    anything but a number is not negative. *)
Lemma performance_rules v :
  Shape.infinite v = false -> Shape.short_runs v = true ->
  exists f, App.performance v = Ok f /\ App.reading f = Rules.performance v /\
            (Shape.is_number v = false -> (0 <= App.reading f)%Z).
Proof.
  intros Hinf Hshort. destruct v as [|b|z|f|s|h|l|d]; cbn [Rules.performance].
  1-3, 6-8: cbn [App.performance]; eexists; repeat split; done.
  - cbn [App.performance]. destruct f as [sg|sg| |sg m e]; cbn [Py.int Py.int_float];
      try discriminate.
    all: eexists; repeat split; done.
  - rewrite performance_text, leftmost_up_to_here, leftmost_tops_here.
    cbn [Shape.short_runs] in Hshort. set (text := list_ascii_of_string s) in *.
    pose proof (digit_runs_are_runs text [] (List.Forall_nil _)) as Hruns.
    destruct (leftmost up_to_digits text) as [ds|] eqn:E1.
    { pose proof (up_to_within text ds Hshort E1) as Hds.
      apply leftmost_tail in E1 as (l & _ & Hhere).
      unfold converted. rewrite Hds. cbn [mbind result_bind fmap option_fmap option_map].
      eexists; repeat split. intros _. apply int_digits_nonneg.
      unfold up_to_digits in Hhere. destruct (after_text _ l) as [r|]; [|done].
      pose proof (number_digits r) as Hr.
      destruct (number r) as [[|d n] rest]; [done|]. by injection Hhere as <-. }
    destruct (leftmost tops_digits text) as [ds|] eqn:E2.
    { pose proof (tops_within text ds Hshort E2) as Hds.
      apply leftmost_tail in E2 as (l & _ & Hhere).
      unfold converted. rewrite Hds. cbn [mbind result_bind fmap option_fmap option_map].
      eexists; repeat split. intros _. apply int_digits_nonneg.
      unfold tops_digits in Hhere. pose proof (number_digits l) as Hr.
      destruct (number l) as [[|d n] rest]; [done|].
      destruct (after_text _ _); [|done]. by injection Hhere as <-. }
    cbn [fmap option_fmap option_map].
    destruct (digit_runs [] text) as [|ds l]; [by eexists|].
    rewrite (for_each_converted _ Hshort). cbn [map mbind result_bind Py.max].
    assert (0 <= int_digits ds)%Z as Hds
      by (apply int_digits_nonneg; by inversion Hruns as [|? ? [_ ?] _]).
    eexists; split; [reflexivity|]. cbn [App.reading largest fold_right].
    rewrite fold_max_largest by done. split; [done|]. intros _.
    pose proof (largest_nonneg (map int_digits l)). lia.
Qed.








End PatternFacts.

(** ** Facts about mappings and lookups *)

Section DictFacts.
Import Store App Shape.
Local Open Scope string_scope.

Lemma truthy_insert (d : dict) k v : Py.truthy (<[k := v]> d) = true.
Proof.
  unfold Py.truthy. apply negb_true_iff, Nat.eqb_neq.
  apply (map_size_ne_0_lookup_2 _ k). rewrite lookup_insert_eq. by eexists.
Qed.

Lemma truthy_to_dict doc : Py.truthy (to_dict doc) = true.
Proof. apply truthy_insert. Qed.

Lemma to_dict_field doc k : k <> "_id" -> to_dict doc !! k = fields doc !! k.
Proof. intros Hk. unfold to_dict. by rewrite lookup_insert_ne. Qed.

Lemma project_lookup keys (d : dict) k :
  project keys d !! k = if decide (k ∈ keys) then d !! k else None.
Proof.
  unfold project. destruct (decide (k ∈ keys)) as [Hin|Hout].
  - destruct (d !! k) as [v|] eqn:Hk.
    + by apply map_lookup_filter_Some_2.
    + apply map_lookup_filter_None_2. by left.
  - apply map_lookup_filter_None_2. right. intros v _ Hin. by apply Hout.
Qed.

Lemma projected_field doc k :
  k ∈ spec_projection -> k <> "_id" ->
  project spec_projection (to_dict doc) !! k = fields doc !! k.
Proof.
  intros Hin Hk. rewrite project_lookup, decide_True by done. by apply to_dict_field.
Qed.

Lemma for_each_total {A B} (f : A -> result B) l :
  Forall (fun x => exists y, f x = Ok y) l -> exists ys, for_each f l = Ok ys /\ length ys = length l.
Proof.
  induction 1 as [|x l [y Hy] _ (ys & IH & Hlen)]; [by exists []|].
  exists (y :: ys). cbn [for_each]. rewrite Hy. cbn [mbind result_bind]. rewrite IH.
  split; [done|]. cbn [length]. by rewrite Hlen.
Qed.

Lemma named_entry_name app :
  named_entry app = true -> exists v, Py.subscript app "name" = Ok v.
Proof.
  destruct app as [| | | | | | |d]; try discriminate. unfold named_entry, Py.has_key.
  cbn [Py.subscript]. unfold Py.getitem. destruct (d !! "name"); [by eexists | done].
Qed.

(** a well-formed link yields the list of its names *)
Lemma application_names_total (a : dict) :
  link_well_formed a = true ->
  exists names, application_names (Some a) = Ok (VList names).
Proof.
  unfold link_well_formed, application_names, linked_applications.
  destruct (Py.truthy a); [|by eexists].
  destruct (a !! "applications") as [[| | | | | |entries|]|]; try discriminate; [|by eexists].
  intros Hall. cbn [Py.iter mbind result_bind].
  destruct (for_each_total (fun app => Py.subscript app "name") entries) as (names & -> & _).
  - apply Forall_forall. intros app Hin. apply named_entry_name.
    rewrite forallb_forall in Hall. by apply Hall, list_elem_of_In.
  - by eexists.
Qed.

Lemma linked_names_total db device_id :
  links_well_formed db = true ->
  exists names,
    application_names (to_dict <$> find_one_by "device_id" device_id (device_apps_collection db))
    = Ok (VList names).
Proof.
  intros Hwf. unfold find_one_by.
  destruct (find _ (device_apps_collection db)) as [link|] eqn:Hfind; cbn [fmap option_fmap option_map].
  - apply application_names_total. apply find_some in Hfind as [Hin _].
    unfold links_well_formed in Hwf. rewrite forallb_forall in Hwf. by apply Hwf.
  - by exists [].
Qed.


Lemma serialisable_body l :
  Py.serialisable (applications_body l) = Py.serialisable l.
Proof.
  unfold applications_body. cbn [Py.serialisable].
  rewrite map_fold_singleton. apply andb_true_r.
Qed.

Lemma jsonify_body l :
  jsonify (applications_body l)
    = if Py.serialisable l then Ok (applications_body l) else Raise TypeError.
Proof. unfold jsonify. by rewrite serialisable_body. Qed.

Lemma serialisable_strings (l : list string) : Py.serialisable (VList (VStr <$> l)) = true.
Proof. cbn [Py.serialisable]. induction l as [|x l IH]; [done|]. by rewrite fmap_cons. Qed.

End DictFacts.

(** ** The device listing, one document at a time *)

Section ListingFacts.
Import Store App Shape Steps.
Local Open Scope string_scope.



Ltac stored_field :=
  unfold Py.get, Py.get_or;
  repeat (rewrite lookup_insert_ne by done);
  rewrite projected_field by (done || compute_done).

Lemma device_view_eq db seen doc :
  device_view db seen doc =
  names ← application_names
            (to_dict <$> find_one_by "device_id" (_id doc) (device_apps_collection db));
  perf ← performance (ai_perf_of doc);
  Ok (completed seen doc names perf).
Proof.
  unfold device_view. cbv zeta.
  destruct (application_names _) as [names|e]; cbn [mbind result_bind]; [|done].
  assert (Py.get (<["applications" := names]> (project spec_projection (to_dict doc)))
            "Super Mode" = Py.get (fields doc) "Super Mode") as -> by (by stored_field).
  fold (annotated doc names).
  assert (Py.get_or (annotated doc names) "AI Performance" (VStr "") = ai_perf_of doc) as ->
    by (unfold annotated, ai_perf_of; by stored_field).
  destruct (performance _) as [[p|p]|e]; cbn [mbind result_bind completed]; [done| |done].
  assert (forall m : dict, m = <["type" := VStr "ai_edge"]> (<["performance" := VInt p]> (annotated doc names)) ->
          Py.get_or m "deviceName" (VStr "") = Py.get_or (fields doc) "deviceName" (VStr "")) as Hname
    by (intros m ->; unfold annotated; by stored_field).
  rewrite (Hname _ eq_refl).
  assert (forall v (m : dict), m = <["model" := v]> (<["type" := VStr "ai_edge"]> (<["performance" := VInt p]> (annotated doc names))) ->
          Py.get_or m "deviceName" (VStr "") = Py.get_or (fields doc) "deviceName" (VStr "")) as Hname'
    by (intros v m ->; unfold annotated; by stored_field).
  by rewrite (Hname' _ _ eq_refl).
Qed.

(** the view of a document is determined whenever its link is well formed
    and its performance is neither an infinite float nor a text with a
    run of digits beyond the limit *)
Lemma device_view_total db seen doc :
  links_well_formed db = true -> infinite (ai_perf_of doc) = false ->
  short_runs (ai_perf_of doc) = true ->
  exists names perf,
    performance (ai_perf_of doc) = Ok perf /\
    reading perf = Rules.performance (ai_perf_of doc) /\
    (is_number (ai_perf_of doc) = false -> (0 <= reading perf)%Z) /\
    device_view db seen doc = Ok (completed seen doc (VList names) perf).
Proof.
  intros Hwf Hfin Hshort. rewrite device_view_eq.
  destruct (linked_names_total db (_id doc) Hwf) as (names & ->).
  destruct (performance_rules _ Hfin Hshort) as (perf & Hperf & Hrules & Hpos).
  exists names, perf. rewrite Hperf. done.
Qed.

Lemma device_view_inv db seen doc view :
  device_view db seen doc = Ok view ->
  exists names perf, performance (ai_perf_of doc) = Ok perf /\ view = completed seen doc names perf.
Proof.
  rewrite device_view_eq.
  destruct (application_names _) as [names|e]; cbn [mbind result_bind]; [|done].
  destruct (performance _) as [perf|e]; cbn [mbind result_bind]; [|done].
  intros [= <-]. by eauto.
Qed.

Ltac inserted :=
  repeat (rewrite lookup_insert_eq || rewrite lookup_insert_ne by done).

Lemma completed_status seen doc names perf :
  completed seen doc names perf !! "status"
    = Some (VStr (status_of (Py.get (fields doc) "Super Mode"))) /\
  completed seen doc names perf !! "formatted_status"
    = Some (VStr (formatted_status_of (Py.get (fields doc) "Super Mode"))).
Proof. destruct perf; unfold completed, annotated; split; by inserted. Qed.

Lemma completed_performance seen doc names perf :
  completed seen doc names perf !! "performance" = Some (VInt (reading perf)).
Proof. destruct perf; unfold completed, annotated; by inserted. Qed.

Lemma completed_applications seen doc names perf :
  completed seen doc names perf !! "applications" = Some names.
Proof. destruct perf; unfold completed, annotated; by inserted. Qed.

Lemma computed_not_projected k :
  k ∈ spec_projection ->
  k <> "applications" /\ k <> "status" /\ k <> "formatted_status" /\ k <> "performance" /\
  k <> "type" /\ k <> "model" /\ k <> "name" /\ k <> "lastSeen".
Proof.
  unfold spec_projection. intros Hin. repeat (apply elem_of_cons in Hin as [->|Hin]; [done|]).
  by apply elem_of_nil in Hin.
Qed.

Lemma completed_projected seen doc names perf k :
  k ∈ spec_projection ->
  completed seen doc names perf !! k = to_dict doc !! k.
Proof.
  intros Hin. destruct (computed_not_projected k Hin) as (?&?&?&?&?&?&?&?).
  destruct perf; unfold completed, annotated; inserted;
    by rewrite project_lookup, decide_True.
Qed.


End ListingFacts.

(** ** Properties of the device listing *)

Section Listing.
Import Store App Shape Steps.
Local Open Scope string_scope.

(** C5. The status is a function of the 'Super Mode' field alone: a view
    has status "enabled" and formatted status "Super Mode: Enabled" when
    the stored field is the string "Enable", and "disabled" and
    "Super Mode: Disabled" for any other value, null and a missing field
    included; and a document has a view, whatever its 'Super Mode',
    whenever the links are well formed and its performance is neither an
    infinite float nor a text with a run of digits beyond the limit. *)
Theorem status_from_super_mode db seen doc :
  (forall view, device_view db seen doc = Ok view ->
     (fields doc !! "Super Mode" = Some (VStr "Enable") ->
        view !! "status" = Some (VStr "enabled") /\
        view !! "formatted_status" = Some (VStr "Super Mode: Enabled")) /\
     (fields doc !! "Super Mode" <> Some (VStr "Enable") ->
        view !! "status" = Some (VStr "disabled") /\
        view !! "formatted_status" = Some (VStr "Super Mode: Disabled"))) /\
  (links_well_formed db = true -> infinite (ai_perf_of doc) = false ->
   short_runs (ai_perf_of doc) = true ->
   exists view, device_view db seen doc = Ok view).
Proof.
  split.
  - intros view Hview. apply device_view_inv in Hview as (names & perf & _ & ->).
    destruct (completed_status seen doc names perf) as [-> ->].
    unfold status_of, formatted_status_of, Py.get, Py.eq_str. split.
    + intros ->. done.
    + intros Hne. destruct (fields doc !! "Super Mode") as [[| | | |s| | |]|]; simpl; try done.
      destruct (String.eqb s "Enable") eqn:E; [|done].
      apply String.eqb_eq in E as ->. done.
  - intros Hwf Hfin Hshort.
    destruct (device_view_total db seen doc Hwf Hfin Hshort) as (names & perf & _ & _ & _ & Hview).
    by eexists.
Qed.

Lemma status_from_super_mode_holds :
  (exists view,
     device_view Sample.ncox_db "now" (Sample.ncox Sample.an_oid) = Ok view /\
     view !! "status" = Some (VStr "enabled") /\
     view !! "formatted_status" = Some (VStr "Super Mode: Enabled")) /\
  (exists view,
     device_view (Sample.only Sample.bare) "now" Sample.bare = Ok view /\
     view !! "status" = Some (VStr "disabled") /\
     view !! "formatted_status" = Some (VStr "Super Mode: Disabled")) /\
  (exists view,
     device_view (Sample.only (Sample.with_mode VNone)) "now" (Sample.with_mode VNone)
       = Ok view /\
     view !! "status" = Some (VStr "disabled") /\
     view !! "formatted_status" = Some (VStr "Super Mode: Disabled")) /\
  (exists view,
     device_view (Sample.only (Sample.with_mode (VStr "enable"))) "now"
                 (Sample.with_mode (VStr "enable")) = Ok view /\
     view !! "status" = Some (VStr "disabled") /\
     view !! "formatted_status" = Some (VStr "Super Mode: Disabled")).
Proof.
  split; [|split; [|split]].
  - destruct (status_from_super_mode Sample.ncox_db "now" (Sample.ncox Sample.an_oid))
      as [Hstatus Hview].
    destruct Hview as [view Hview]; try (vm_compute; reflexivity).
    exists view. split; [exact Hview|].
    apply (proj1 (Hstatus view Hview)). vm_compute. reflexivity.
  - destruct (status_from_super_mode (Sample.only Sample.bare) "now" Sample.bare)
      as [Hstatus Hview].
    destruct Hview as [view Hview]; try (vm_compute; reflexivity).
    exists view. split; [exact Hview|].
    apply (proj2 (Hstatus view Hview)). intros H. vm_compute in H. discriminate H.
  - destruct (status_from_super_mode (Sample.only (Sample.with_mode VNone)) "now"
                (Sample.with_mode VNone)) as [Hstatus Hview].
    destruct Hview as [view Hview]; try (vm_compute; reflexivity).
    exists view. split; [exact Hview|].
    apply (proj2 (Hstatus view Hview)). intros H. vm_compute in H. discriminate H.
  - destruct (status_from_super_mode (Sample.only (Sample.with_mode (VStr "enable"))) "now"
                (Sample.with_mode (VStr "enable"))) as [Hstatus Hview].
    destruct Hview as [view Hview]; try (vm_compute; reflexivity).
    exists view. split; [exact Hview|].
    apply (proj2 (Hstatus view Hview)). intros H. vm_compute in H. discriminate H.
Defined.








Lemma device_views_total db seen : forall docs i,
  links_well_formed db = true ->
  forallb (fun doc => negb (infinite (ai_perf_of doc))) docs = true ->
  forallb (fun doc => short_runs (ai_perf_of doc)) docs = true ->
  exists views, device_views db seen i docs = Ok views /\ length views = length docs.
Proof.
  induction docs as [|doc docs IH]; intros i Hwf Hfin Hshort; [by exists []|].
  cbn [forallb] in Hfin, Hshort. apply andb_true_iff in Hfin as [Hdoc Hdocs].
  apply andb_true_iff in Hshort as [Hrun Hruns]. apply negb_true_iff in Hdoc.
  destruct (device_view_total db (seen i) doc Hwf Hdoc Hrun)
    as (names & perf & _ & _ & _ & Hview).
  destruct (IH (S i) Hwf Hdocs Hruns) as (views & Hviews & Hlen).
  eexists (_ :: views). cbn [device_views]. rewrite Hview. cbn [mbind result_bind].
  rewrite Hviews. split; [done|]. cbn [length]. by rewrite Hlen.
Qed.

(** the listing of the scenario: one view, the tag as stored *)
Lemma scenario_view link_oid oid more seen :
  exists view,
    get_mongodb_devices (Sample.scenario link_oid oid more) seen
      = Json 200 (VList [VDict view]) /\
    view !! "performance" = Some (VInt 16) /\
    view !! "status" = Some (VStr "enabled") /\
    view !! "tag" = Some (VStr "Best Seller") /\
    view !! "applications" = Some (VList [VStr "Smart Surveillance"]).
Proof.
  set (db := Sample.scenario link_oid oid more). set (doc := Sample.ncox oid).
  assert (device_view db (seen 0) doc
            = Ok (completed (seen 0) doc (VList [VStr "Smart Surveillance"]) (Continue 16%Z)))
    as Hview.
  { rewrite device_view_eq.
    assert (find_one_by "device_id" (_id doc) (device_apps_collection db)
              = Some (Sample.ncox_link link_oid oid more)) as ->.
    { unfold find_one_by. cbn [device_apps_collection db Sample.scenario find].
      rewrite to_dict_field by done. cbn [fields Sample.ncox_link list_to_map foldr uncurry fst snd].
      rewrite lookup_insert_eq. cbn [field_is _id doc Sample.ncox snd].
      by rewrite String.eqb_refl. }
    cbn [fmap option_fmap option_map]. unfold application_names, linked_applications.
    rewrite truthy_to_dict, to_dict_field by done.
    cbn [fields Sample.ncox_link list_to_map foldr uncurry fst snd].
    rewrite lookup_insert_ne, lookup_insert_eq by done.
    cbn [Py.iter mbind result_bind for_each Py.subscript]. unfold Py.getitem.
    rewrite lookup_insert_eq. cbn [mbind result_bind].
    assert (performance (ai_perf_of doc) = Ok (Continue 16%Z)) as -> by (vm_compute; reflexivity).
    done. }
  exists (completed (seen 0) doc (VList [VStr "Smart Surveillance"]) (Continue 16%Z)).
  split.
  { unfold get_mongodb_devices. cbn [device_specs_collection db Sample.scenario device_views].
    fold doc. fold db. rewrite Hview. done. }
  split; [apply completed_performance|].
  split; [by rewrite (proj1 (completed_status _ _ _ _))|].
  split; [by rewrite completed_projected by compute_done|].
  apply completed_applications.
Qed.

End Listing.

(** ** The listing with tags *)

Section Tags.
Import Store App Shape Steps.
Local Open Scope string_scope.



Lemma tagged_view_eq db doc :
  tagged_view db doc =
  device ← tag_step (<["_id" := VStr (_id doc)]> (to_dict doc));
  names ← application_names
            (to_dict <$> find_one_by "device_id" (_id doc) (device_apps_collection db));
  Ok (name_step (_id doc) (<["applications" := names]> device)).
Proof. reflexivity. Qed.


Lemma fetched_field doc k :
  k <> "_id" -> (<["_id" := VStr (_id doc)]> (to_dict doc) : dict) !! k = fields doc !! k.
Proof. intros Hk. rewrite lookup_insert_ne by done. by apply to_dict_field. Qed.

Lemma tag_step_total doc :
  null_or_str (source_tag (fields doc)) = true ->
  exists device,
    tag_step (<["_id" := VStr (_id doc)]> (to_dict doc)) = Ok device /\
    device !! "tag" = Some (lowered (source_tag (fields doc))) /\
    (fields doc !! "tag" = None -> device !! "Tag" = None) /\
    device !! "_id" = Some (VStr (_id doc)).
Proof.
  unfold tag_step, source_tag, Py.has_key, Py.get.
  rewrite !fetched_field by done.
  destruct (fields doc !! "tag") as [t|] eqn:Ht; [|destruct (fields doc !! "Tag") as [t|] eqn:HT];
    cbn [fst snd default from_option id].
  3: intros _; cbn [Py.is_none]; eexists; (split; [reflexivity|]).
  1-2: destruct t as [| | | |s| | |]; try discriminate; intros _;
    cbn [Py.is_none Py.lower mbind result_bind lowered]; eexists; (split; [reflexivity|]).
  all: repeat split; try (intros Hnone; try discriminate).
  all: repeat (rewrite lookup_insert_eq || (rewrite lookup_insert_ne by done)
               || rewrite lookup_delete_eq || (rewrite lookup_delete_ne by done)
               || (rewrite to_dict_field by done)).
  all: done.
Qed.

Lemma name_step_other oid (device : dict) k :
  k <> "formattedName" -> k <> "deviceName" -> k <> "description" ->
  name_step oid device !! k = device !! k.
Proof.
  intros H1 H2 H3. unfold name_step.
  destruct (Py.has_key device "deviceName"); cbv zeta;
    match goal with |- context [Py.has_key ?d "description"] =>
      destruct (Py.has_key d "description") end;
    by repeat (rewrite lookup_insert_ne by done).
Qed.

Lemma tagged_view_total db doc :
  links_well_formed db = true -> null_or_str (source_tag (fields doc)) = true ->
  exists view,
    tagged_view db doc = Ok view /\
    view !! "tag" = Some (lowered (source_tag (fields doc))) /\
    (fields doc !! "tag" = None -> view !! "Tag" = None) /\
    view !! "_id" = Some (VStr (_id doc)).
Proof.
  intros Hwf Htag. rewrite tagged_view_eq.
  destruct (tag_step_total doc Htag) as (device & -> & Ht & HT & Hid).
  destruct (linked_names_total db (_id doc) Hwf) as (names & ->).
  cbn [mbind result_bind]. eexists. split; [reflexivity|].
  rewrite !name_step_other by done. rewrite !lookup_insert_ne by done. done.
Qed.





(** the scenario through the listing with tags: the tag is lower-cased *)
Lemma scenario_tagged link_oid oid more :
  exists view,
    get_devices_with_tags (Sample.scenario link_oid oid more) = Json 200 (VList [VDict view]) /\
    view !! "tag" = Some (VStr "best seller").
Proof.
  destruct (tagged_view_total (Sample.scenario link_oid oid more) (Sample.ncox oid))
    as (view & Hview & Ht & _).
  - unfold links_well_formed. cbn [Sample.scenario device_apps_collection forallb].
    unfold link_well_formed. rewrite to_dict_field by done.
    cbn [fields Sample.ncox_link list_to_map foldr uncurry fst snd].
    rewrite lookup_insert_ne, lookup_insert_eq by done.
    cbn [forallb named_entry]. unfold Py.has_key. by rewrite lookup_insert_eq.
  - vm_compute. reflexivity.
  - exists view. unfold get_devices_with_tags.
    cbn [Sample.scenario device_specs_collection for_each].
    fold (Sample.scenario link_oid oid more). rewrite Hview. split; [done|].
    rewrite Ht. vm_compute. reflexivity.
Qed.

End Tags.

(** ** Lookups by identifier *)

Section Lookups.
Import Store App Shape.
Local Open Scope string_scope.




(** C6. An identifier that matches no specification, neither by its
    ['device_id'] field nor as an ObjectId, is answered by the "not found"
    response with status 404, whether or not it has the form of an
    ObjectId. *)
Theorem specifications_not_found db device_id :
  find_one_by "device_id" device_id (device_specs_collection db) = None ->
  (forall oid, ObjectId device_id = Ok oid ->
               find_one_id oid (device_specs_collection db) = None) ->
  get_device_specifications db device_id
    = Json 404 (VDict {["error" := VStr "Specifications not found"]}).
Proof.
  intros Hfield Hoid. unfold get_device_specifications, specifications_by_oid.
  rewrite Hfield. destruct (ObjectId device_id) as [oid|e] eqn:E; cbn [mbind result_bind];
    [|done].
  by rewrite (Hoid oid eq_refl).
Qed.

Lemma specifications_not_found_holds :
  get_device_specifications Sample.ncox_db "67f4044ea91332165a91a8ac"
    = Json 404 (VDict {["error" := VStr "Specifications not found"]}) /\
  get_device_specifications Sample.ncox_db Sample.mock_id
    = Json 404 (VDict {["error" := VStr "Specifications not found"]}).
Proof.
  split; apply specifications_not_found; try (vm_compute; reflexivity).
  - intros oid H. vm_compute in H. injection H as <-. vm_compute. reflexivity.
  - intros oid H. vm_compute in H. discriminate.
Defined.




(** C7, at an identifier that is not an ObjectId.  When no link gives
    applications for the identifier and [ObjectId] rejects it, the lookup
    of the default applications raises [InvalidId] outside the [try]
    block, and the answer is the error response, not an empty list. *)
Theorem applications_invalid_id db device_id :
  linked_applications
    (to_dict <$> find_one_by "device_id" device_id (device_apps_collection db)) = None ->
  ObjectId device_id = Raise InvalidId ->
  get_device_applications db device_id = Failure "Failed to fetch applications: " InvalidId.
Proof.
  intros Hlink Hoid. unfold get_device_applications, applications_by_oid, default_applications.
  rewrite Hlink, Hoid. cbn [mbind result_bind fst snd]. by rewrite Hoid.
Qed.

Lemma applications_invalid_id_holds :
  get_device_applications Sample.ncox_db Sample.mock_id
    = Failure "Failed to fetch applications: " InvalidId.
Proof.
  apply applications_invalid_id; vm_compute; reflexivity.
Defined.

(** an identifier of the right form that no specification has is answered
    by an empty list *)
Lemma applications_unknown_oid db device_id oid :
  linked_applications
    (to_dict <$> find_one_by "device_id" device_id (device_apps_collection db)) = None ->
  ObjectId device_id = Ok oid ->
  find_one_id oid (device_specs_collection db) = None ->
  get_device_applications db device_id = Json 200 (applications_body (VList [])).
Proof.
  intros Hlink Hoid Hnone.
  unfold get_device_applications, applications_by_oid, default_applications.
  rewrite Hlink, Hoid, Hnone. cbn [fst snd].
  rewrite Hoid. cbn [mbind result_bind]. by rewrite Hnone.
Qed.

Lemma hex_facts a :
  Str.ishex a = true ->
  Str.between 9 13 a || Str.between 32 32 a = false /\
  Str.ishex (Str.lower_char a) = true.
Proof.
  destruct a as [[] [] [] [] [] [] [] []]; vm_compute; intros; try discriminate; by split.
Qed.

Lemma fromhex_hex n : forall l,
  length l = 2 * n -> forallb Str.ishex l = true -> fromhex l = Some (map Str.lower_char l).
Proof.
  induction n as [|n IH]; intros l Hlen Hhex.
  - destruct l; [done | simpl in Hlen; lia].
  - destruct l as [|a [|b t]]; try (simpl in Hlen; lia).
    cbn [forallb] in Hhex. apply andb_true_iff in Hhex as [Ha Hhex].
    apply andb_true_iff in Hhex as [Hb Hhex].
    cbn [fromhex map]. rewrite (proj1 (hex_facts a Ha)), Ha, Hb. cbn [andb].
    rewrite IH; [done | simpl in Hlen; lia | done].
Qed.

Lemma lower_as_map s :
  string_of_list_ascii (map Str.lower_char (list_ascii_of_string s)) = Str.lower s.
Proof. induction s as [|a s IH]; [done|]. cbn. by rewrite IH. Qed.

Lemma lower_length s : String.length (Str.lower s) = String.length s.
Proof. induction s as [|a s IH]; [done|]. cbn. by rewrite IH. Qed.

Lemma length_as_list s : length (list_ascii_of_string s) = String.length s.
Proof. induction s as [|a s IH]; [done|]. cbn. by rewrite IH. Qed.

Lemma lower_hex s :
  forallb Str.ishex (list_ascii_of_string s) = true ->
  forallb Str.ishex (list_ascii_of_string (Str.lower s)) = true.
Proof.
  induction s as [|a s IH]; [done|]. cbn [list_ascii_of_string forallb Str.lower].
  intros [Ha Hs]%andb_true_iff. by rewrite (proj2 (hex_facts a Ha)), IH.
Qed.

(** [ObjectId] accepts 24 hex digits, and reads them in lower case *)
Lemma ObjectId_hex s :
  String.length s = 24 -> forallb Str.ishex (list_ascii_of_string s) = true ->
  ObjectId s = Ok (Str.lower s).
Proof.
  intros Hlen Hhex. unfold ObjectId. rewrite Hlen. cbn [Nat.eqb].
  rewrite (fromhex_hex 12) by (by rewrite ?length_as_list). by rewrite lower_as_map.
Qed.

(** the first part of C7: with no link giving applications, a device that
    is found and whose name is a string gets the "server" set if the name
    holds "Server", the "edge" set otherwise *)
Lemma applications_defaults db device_id doc name :
  String.length device_id = 24 ->
  forallb Str.ishex (list_ascii_of_string device_id) = true ->
  (forall id, linked_applications
                (to_dict <$> find_one_by "device_id" id (device_apps_collection db)) = None) ->
  find_one_id (Str.lower device_id) (device_specs_collection db) = Some doc ->
  Py.get_or (fields doc) "deviceName" (VStr "") = VStr name ->
  get_device_applications db device_id
    = Json 200 (applications_body
        (VList (VStr <$> (if Str.contains (list_ascii_of_string "Server")
                                          (list_ascii_of_string name)
                          then server_apps else edge_apps)))).
Proof.
  intros Hlen Hhex Hlink Hdoc Hname.
  assert (_id doc = Str.lower device_id) as Hid.
  { apply find_some in Hdoc as [_ Heq]. by apply String.eqb_eq in Heq. }
  unfold get_device_applications, applications_by_oid, default_applications.
  rewrite Hlink, (ObjectId_hex _ Hlen Hhex).
  rewrite Hdoc, truthy_to_dict, Hlink. cbn [fst snd]. rewrite Hid.
  rewrite ObjectId_hex by (by rewrite ?lower_length; try apply lower_hex).
  cbn [mbind result_bind]. rewrite lower_idem, Hdoc, truthy_to_dict.
  assert (Py.get_or (to_dict doc) "deviceName" (VStr "") = VStr name) as ->.
  { unfold Py.get_or in *. by rewrite to_dict_field. }
  cbn [Py.contains mbind result_bind]. by rewrite jsonify_body, serialisable_strings.
Qed.

End Lookups.

(** ** The performance rules on particular texts *)

Section Particular.
Import Str Re Rules Store App Shape Steps.
Local Open Scope string_scope.

Lemma after_text_app pre rest :
  after_text (map lower_char pre) (pre ++ rest)%list = Some rest.
Proof.
  induction pre as [|a pre IH]; [done|]. cbn [map app after_text].
  by rewrite Ascii.eqb_refl.
Qed.

Lemma number_app ds r :
  Forall (fun a => isdecimal a = true) ds ->
  match r with a :: _ => isdecimal a = false | [] => True end ->
  number (ds ++ r)%list = (ds, r).
Proof.
  intros Hds Hr. induction Hds as [|a ds Ha _ IH]; cbn [app number].
  - destruct r as [|b r]; [done|]. cbn [number]. by rewrite Hr.
  - by rewrite Ha, IH.
Qed.

Lemma leftmost_here {X} (here : list ascii -> option X) s x :
  here s = Some x -> leftmost here s = Some x.
Proof. intros H. destruct s; cbn [leftmost]; by rewrite H. Qed.

Lemma blank_not_decimal a : lower_char a = " "%char -> isdecimal a = false.
Proof.
  destruct a as [[] [] [] [] [] [] [] []]; vm_compute; intros; try discriminate; done.
Qed.

Lemma up_to_digits_here pre digits post :
  map lower_char pre = list_ascii_of_string "up to " ->
  digit_run digits ->
  map lower_char post = list_ascii_of_string " tops" ->
  leftmost up_to_digits (pre ++ digits ++ post)%list = Some digits.
Proof.
  intros Hpre [Hne Hds] Hpost.
  apply leftmost_here. unfold up_to_digits. rewrite <- Hpre, after_text_app.
  rewrite number_app; [by destruct digits | done |].
  destruct post as [|c post]; [done|]. apply blank_not_decimal.
  by injection Hpost.
Qed.

(** "Up to N TOPS", in any letter case, yields N when N has no more digits
    than [int] takes, and [ValueError] when it has *)
Lemma up_to_n_tops pre digits post :
  map lower_char pre = list_ascii_of_string "up to " ->
  digit_run digits ->
  map lower_char post = list_ascii_of_string " tops" ->
  performance (VStr (string_of_list_ascii (pre ++ digits ++ post)))
    = (p ← converted digits; Ok (Continue p)) /\
  Rules.performance (VStr (string_of_list_ascii (pre ++ digits ++ post))) = int_digits digits.
Proof.
  intros Hpre Hrun Hpost. split.
  - rewrite performance_text, list_ascii_of_string_of_list_ascii.
    by rewrite (up_to_digits_here pre digits post Hpre Hrun Hpost).
  - cbn [Rules.performance]. rewrite list_ascii_of_string_of_list_ascii, leftmost_up_to_here.
    by rewrite (up_to_digits_here pre digits post Hpre Hrun Hpost).
Qed.

Lemma after_text_shorter w w' : forall s r,
  after_text (w ++ w')%list s = Some r -> exists r', after_text w s = Some r'.
Proof.
  induction w as [|c w IH]; intros s r; cbn [app after_text]; [by eauto|].
  destruct s as [|a t]; [done|]. destruct (Ascii.eqb _ c); [apply IH | done].
Qed.

Lemma mentions_here w s r : after_text w s = Some r -> mentions w s = true.
Proof. intros H. destruct s; cbn [mentions]; by rewrite H. Qed.

Lemma mentions_later w a t : mentions w t = true -> mentions w (a :: t) = true.
Proof. intros H. cbn [mentions]. by destruct (after_text w (a :: t)). Qed.

Lemma mentions_suffix w p s : mentions w s = true -> mentions w (p ++ s)%list = true.
Proof.
  intros H. induction p as [|a p IH]; [done|]. cbn [app]. by apply mentions_later.
Qed.

Lemma lstrip_suffix r : exists p, r = (p ++ lstrip r)%list.
Proof.
  induction r as [|a r (p & IH)]; [by exists []|]. cbn [lstrip].
  destruct (isspace a); [|by exists []]. exists (a :: p). cbn [app]. by f_equal.
Qed.

Lemma leftmost_mentions {X} (here : list ascii -> option X) w :
  (forall t n, here t = Some n -> mentions w t = true) ->
  forall s n, leftmost here s = Some n -> mentions w s = true.
Proof.
  intros Hhere s. induction s as [|a t IH]; intros n; cbn [leftmost].
  - destruct (here []) eqn:E; [|done]. intros _. by eapply Hhere.
  - destruct (here (a :: t)) eqn:E; [intros _; by eapply Hhere|].
    intros H. eapply mentions_later, IH, H.
Qed.

Lemma up_to_here_mentions t n :
  up_to_here t = Some n -> mentions (list_ascii_of_string "up to") t = true.
Proof.
  unfold up_to_here. destruct (after_text _ t) as [r|] eqn:Hr; [|done]. intros _.
  destruct (after_text_shorter (list_ascii_of_string "up to") (list_ascii_of_string " ") t r Hr)
    as [r' Hr'].
  by eapply mentions_here.
Qed.

Lemma tops_here_mentions t n :
  tops_here t = Some n -> mentions (list_ascii_of_string "tops") t = true.
Proof.
  unfold tops_here. pose proof (number_split t) as Hsplit.
  destruct (number t) as [[|d ds] rest]; [done|]. cbn [fst snd] in Hsplit.
  destruct (after_text _ (lstrip rest)) as [e|] eqn:He; [|done]. intros _.
  destruct (lstrip_suffix rest) as [p Hp].
  rewrite Hsplit, Hp, app_assoc. eapply mentions_suffix, mentions_here, He.
Qed.

(** a text that mentions neither "up to" nor "tops" yields the largest of
    its digit runs (0 when it has none), when none is beyond the limit *)
Lemma bare_numbers s :
  mentions (list_ascii_of_string "up to") (list_ascii_of_string s) = false ->
  mentions (list_ascii_of_string "tops") (list_ascii_of_string s) = false ->
  short_runs (VStr s) = true ->
  exists f, performance (VStr s) = Ok f /\
            reading f = largest (map int_digits (digit_runs [] (list_ascii_of_string s))).
Proof.
  intros Hup Htops Hshort.
  destruct (performance_rules (VStr s) eq_refl Hshort) as (f & Hf & Hrules & _).
  exists f. split; [exact Hf|]. rewrite Hrules. cbn [Rules.performance].
  destruct (leftmost up_to_here _) as [n|] eqn:E1.
  { apply (leftmost_mentions _ _ up_to_here_mentions) in E1. congruence. }
  destruct (leftmost tops_here _) as [n|] eqn:E2.
  { apply (leftmost_mentions _ _ tops_here_mentions) in E2. congruence. }
  done.
Qed.







(** C1, at an infinite float.  On every other value, a text with a run
    of more than 4300 digits apart, the extraction follows the rules in
    their order: "Up to N" first, then "N TOPS", then the largest digit
    run, a number truncated to an integer, 0 otherwise; "Up to N TOPS" in
    any letter case yields N, and a text with bare numbers only yields the
    largest.  On an infinite float [int] raises [OverflowError], which the
    [except (ValueError, TypeError)] clause lets through: there is no
    performance, and the whole listing is answered by the error response.
    On a number of more than 4300 digits [int] raises [ValueError] where
    no clause catches it. *)
Theorem performance_by_rules :
  (forall v, infinite v = false -> short_runs v = true ->
     exists f, performance v = Ok f /\ reading f = Rules.performance v) /\
  (forall pre digits post,
     map lower_char pre = list_ascii_of_string "up to " ->
     digits <> [] -> Forall (fun a => isdecimal a = true) digits ->
     map lower_char post = list_ascii_of_string " tops" ->
     within_limit digits = true ->
     performance (VStr (string_of_list_ascii (pre ++ digits ++ post)))
       = Ok (Continue (int_digits digits))) /\
  (forall s,
     mentions (list_ascii_of_string "up to") (list_ascii_of_string s) = false ->
     mentions (list_ascii_of_string "tops") (list_ascii_of_string s) = false ->
     short_runs (VStr s) = true ->
     exists f, performance (VStr s) = Ok f /\
       reading f = largest (map int_digits (digit_runs [] (list_ascii_of_string s)))) /\
  (forall sign,
     performance (VFloat (S754_infinity sign)) = Raise OverflowError /\
     Rules.performance (VFloat (S754_infinity sign)) = 0%Z) /\
  get_mongodb_devices (Sample.only (Sample.with_perf (VFloat (S754_infinity false))))
                      Sample.clock
    = Failure "Failed to fetch devices: " OverflowError /\
  (forall pre digits post,
     map lower_char pre = list_ascii_of_string "up to " ->
     digits <> [] -> Forall (fun a => isdecimal a = true) digits ->
     map lower_char post = list_ascii_of_string " tops" ->
     within_limit digits = false ->
     performance (VStr (string_of_list_ascii (pre ++ digits ++ post))) = Raise ValueError /\
     Rules.performance (VStr (string_of_list_ascii (pre ++ digits ++ post)))
       = int_digits digits).
Proof.
  split; [|split; [|split; [|split; [|split]]]].
  - intros v Hv Hshort. destruct (performance_rules v Hv Hshort) as (f & Hf & Hr & _).
    by exists f.
  - intros pre digits post Hpre Hne Hds Hpost Hlim.
    destruct (up_to_n_tops pre digits post Hpre (conj Hne Hds) Hpost) as [-> _].
    unfold converted. by rewrite Hlim.
  - exact bare_numbers.
  - intros sign. split; reflexivity.
  - vm_compute. reflexivity.
  - intros pre digits post Hpre Hne Hds Hpost Hlim.
    destruct (up_to_n_tops pre digits post Hpre (conj Hne Hds) Hpost) as [-> ->].
    unfold converted. by rewrite Hlim.
Qed.

Lemma performance_by_rules_holds :
  performance (VStr "uP tO 16 Tops") = Ok (Continue 16%Z) /\
  (exists f, performance (VStr "4 or 16") = Ok f /\ reading f = 16%Z) /\
  (exists f, performance (VInt 7) = Ok f /\ reading f = 7%Z).
Proof.
  split; [|split].
  - apply (proj1 (proj2 performance_by_rules)
             (list_ascii_of_string "uP tO ") (list_ascii_of_string "16")
             (list_ascii_of_string " Tops")).
    + vm_compute. reflexivity.
    + discriminate.
    + repeat constructor.
    + vm_compute. reflexivity.
    + vm_compute. reflexivity.
  - destruct (proj1 (proj2 (proj2 performance_by_rules)) "4 or 16") as (f & Hf & Hr).
    + vm_compute. reflexivity.
    + vm_compute. reflexivity.
    + vm_compute. reflexivity.
    + exists f. split; [exact Hf|]. rewrite Hr. vm_compute. reflexivity.
  - destruct (proj1 performance_by_rules (VInt 7)) as (f & Hf & Hr);
      [reflexivity | reflexivity |].
    exists f. split; [exact Hf|]. rewrite Hr. reflexivity.
Defined.

End Particular.

(** ** The listings as a whole *)

Section Whole.
Import Store App Shape.
Local Open Scope string_scope.




(** C9, as the listings have it.  With the NCOX specification and its
    link in the store, the device listing returns one view with
    performance 16, status "enabled", applications ["Smart Surveillance"]
    and the tag as stored, "Best Seller"; the listing with tags returns
    one view whose tag is "best seller". *)
Theorem scenario_listing link_oid oid more seen :
  (exists view,
     get_mongodb_devices (Sample.scenario link_oid oid more) seen
       = Json 200 (VList [VDict view]) /\
     view !! "performance" = Some (VInt 16) /\
     view !! "status" = Some (VStr "enabled") /\
     view !! "tag" = Some (VStr "Best Seller") /\
     view !! "applications" = Some (VList [VStr "Smart Surveillance"])) /\
  (exists view,
     get_devices_with_tags (Sample.scenario link_oid oid more)
       = Json 200 (VList [VDict view]) /\
     view !! "tag" = Some (VStr "best seller")).
Proof. split; [apply scenario_view | apply scenario_tagged]. Qed.

(** C9, as stated, fails: no view of the device listing has the tag
    "best seller". *)
Lemma scenario_tag_not_lowered :
  ~ exists view,
      get_mongodb_devices Sample.ncox_db Sample.clock = Json 200 (VList [VDict view]) /\
      view !! "performance" = Some (VInt 16) /\
      view !! "status" = Some (VStr "enabled") /\
      view !! "tag" = Some (VStr "best seller") /\
      view !! "applications" = Some (VList [VStr "Smart Surveillance"]).
Proof.
  intros (view & Hresp & _ & _ & Htag & _).
  destruct (scenario_view Sample.a_link_oid Sample.an_oid Sample.surveillance Sample.clock)
    as (v & Hv & _ & _ & Htag' & _).
  unfold Sample.ncox_db in Hresp. rewrite Hv in Hresp. injection Hresp as <-.
  rewrite Htag' in Htag. discriminate Htag.
Qed.

End Whole.

(** ** The mock listing *)

Section MockFacts.
Import Mock.
Local Open Scope string_scope.

Lemma refresh_status ago draw d : status (refresh ago draw d) = status d.
Proof. unfold refresh. by destruct (String.eqb (status d) "enabled"). Qed.

Lemma refresh_range ago draw d :
  status d = "enabled" -> (0 <= performance (refresh ago draw d) <= 100)%Z.
Proof.
  intros E. unfold refresh.
  assert (String.eqb (status d) "enabled" = true) as -> by (by apply String.eqb_eq).
  cbn [performance]. lia.
Qed.

Lemma refresh_disabled ago draw d : status d <> "enabled" -> refresh ago draw d = d.
Proof. intros E. unfold refresh. apply String.eqb_neq in E. by rewrite E. Qed.

Lemma refresh_frame ago draw d :
  id (refresh ago draw d) = id d /\ name (refresh ago draw d) = name d /\
  model (refresh ago draw d) = model d /\ type (refresh ago draw d) = type d /\
  tag (refresh ago draw d) = tag d /\ specs (refresh ago draw d) = specs d /\
  applications (refresh ago draw d) = applications d.
Proof. unfold refresh. by destruct (String.eqb (status d) "enabled"). Qed.

Lemma refresh_step ago draw d :
  (0 <= performance d <= 100)%Z -> (-5 <= draw.2 <= 5)%Z ->
  (0 <= performance (refresh ago draw d) <= 100)%Z /\
  (Z.abs (performance (refresh ago draw d) - performance d) <= 5)%Z.
Proof.
  intros Hp Hd. unfold refresh. destruct (String.eqb (status d) "enabled");
    cbn [performance]; lia.
Qed.

Lemma get_devices_lookup ago draws devices i :
  get_devices ago draws devices !! i = refresh ago (draws i) <$> devices !! i.
Proof. unfold get_devices. by rewrite list_lookup_imap. Qed.

Lemma requests_snoc rs r devices :
  requests (rs ++ [r]) devices = get_devices r.1 r.2 (requests rs devices).
Proof. unfold requests. by rewrite foldl_app. Qed.

(** X1. Whatever the requests before and whatever numbers are drawn, after
    a request to the mock listing every enabled device has a performance
    between 0 and 100. *)
Theorem mock_performance_range rs r devices i d :
  requests (rs ++ [r]) devices !! i = Some d -> status d = "enabled" ->
  (0 <= performance d <= 100)%Z.
Proof.
  rewrite requests_snoc, get_devices_lookup.
  destruct (requests rs devices !! i) as [d0|]; [|done]. intros [= <-] Hst.
  apply refresh_range. by rewrite refresh_status in Hst.
Qed.

(** X2. Requests to the mock listing keep the number and the order of the
    devices, change nothing of a device but its ['lastSeen'] and
    ['performance'], and leave a device that is not enabled exactly as it
    was. *)
Theorem mock_requests_frame rs : forall devices i d,
  devices !! i = Some d ->
  exists d',
    requests rs devices !! i = Some d' /\
    length (requests rs devices) = length devices /\
    id d' = id d /\ name d' = name d /\ model d' = model d /\ type d' = type d /\
    status d' = status d /\ tag d' = tag d /\ specs d' = specs d /\
    applications d' = applications d /\
    (status d <> "enabled" -> d' = d).
Proof.
  induction rs as [|r rs IH] using rev_ind; intros devices i d Hd.
  - exists d. by repeat split.
  - destruct (IH devices i d Hd) as (d1 & H1 & Hlen & ? & ? & ? & ? & Hst & ? & ? & ? & Hdis).
    rewrite requests_snoc. exists (refresh r.1 (r.2 i) d1).
    rewrite get_devices_lookup, H1. split; [done|].
    split; [unfold get_devices; by rewrite length_imap|].
    destruct (refresh_frame r.1 (r.2 i) d1) as (-> & -> & -> & -> & -> & -> & ->).
    rewrite refresh_status. repeat split; try done.
    intros Hne. rewrite refresh_disabled by (by rewrite Hst). by apply Hdis.
Qed.

(** X3. A device whose performance starts between 0 and 100 stays there,
    and when each draw is between -5 and 5, as [random.randint(-5, 5)]
    gives them, its performance after a series of requests is at most five
    times their number away from where it started. *)
Theorem mock_performance_drift rs : forall devices i d,
  devices !! i = Some d -> (0 <= performance d <= 100)%Z ->
  Forall (fun r : (Z -> string) * (nat -> Z * Z) => (-5 <= (r.2 i).2 <= 5)%Z) rs ->
  exists d',
    requests rs devices !! i = Some d' /\
    (0 <= performance d' <= 100)%Z /\
    (Z.abs (performance d' - performance d) <= 5 * Z.of_nat (length rs))%Z.
Proof.
  induction rs as [|r rs IH] using rev_ind; intros devices i d Hd Hp Hdraws.
  - exists d. repeat split; try done; cbn; lia.
  - apply Forall_app in Hdraws as [Hrs Hr]. inversion Hr as [|? ? Hr' _]; subst.
    destruct (IH devices i d Hd Hp Hrs) as (d1 & H1 & Hp1 & Hdrift).
    rewrite requests_snoc. exists (refresh r.1 (r.2 i) d1).
    rewrite get_devices_lookup, H1. split; [done|].
    destruct (refresh_step r.1 (r.2 i) d1 Hp1 Hr') as [Hrange Hstep].
    split; [done|]. rewrite length_app. cbn [length]. lia.
Qed.

Lemma mock_performance_range_holds :
  exists d,
    requests ([Fixture.request] ++ [Fixture.request]) (devices Fixture.ago) !! 1 = Some d /\
    (0 <= performance d <= 100)%Z.
Proof.
  exists (Device (Some "device-67f4044ea91332165a91a8ac") "NCON" "NCON" "ai_edge" "enabled"
            (Fixture.ago 7%Z) 18%Z None (specs (ncon Fixture.ago))
            (applications (ncon Fixture.ago))).
  split; [reflexivity|].
  apply (mock_performance_range [Fixture.request] Fixture.request (devices Fixture.ago) 1);
    reflexivity.
Defined.

Lemma mock_requests_frame_holds :
  exists d',
    requests [Fixture.request; Fixture.request] (devices Fixture.ago) !! 3 = Some d' /\
    length (requests [Fixture.request; Fixture.request] (devices Fixture.ago))
      = length (devices Fixture.ago) /\
    id d' = id (psox Fixture.ago) /\ name d' = name (psox Fixture.ago) /\
    model d' = model (psox Fixture.ago) /\ type d' = type (psox Fixture.ago) /\
    status d' = status (psox Fixture.ago) /\ tag d' = tag (psox Fixture.ago) /\
    specs d' = specs (psox Fixture.ago) /\
    applications d' = applications (psox Fixture.ago) /\
    (status (psox Fixture.ago) <> "enabled" -> d' = psox Fixture.ago).
Proof.
  apply (mock_requests_frame [Fixture.request; Fixture.request] (devices Fixture.ago) 3).
  reflexivity.
Defined.

Lemma mock_performance_drift_holds :
  exists d',
    requests [Fixture.request; Fixture.request] (devices Fixture.ago) !! 2 = Some d' /\
    (0 <= performance d' <= 100)%Z /\
    (Z.abs (performance d' - performance (pson Fixture.ago))
       <= 5 * Z.of_nat (length [Fixture.request; Fixture.request]))%Z.
Proof.
  apply (mock_performance_drift [Fixture.request; Fixture.request] (devices Fixture.ago) 2).
  - reflexivity.
  - cbn. lia.
  - repeat constructor; cbn; lia.
Defined.

End MockFacts.

(** ** Inserted mock devices, as the listing shows them *)

Section MockInsert.
Import Str Re Rules Store App Shape Steps Mock.
Local Open Scope string_scope.












End MockInsert.

Section MockListed.
Import Str Re Rules Store App Shape Steps Mock.
Local Open Scope string_scope.




End MockListed.

Section MockLoop.
Import Str Store Mock.
Local Open Scope string_scope.

Lemma mock_document_raise d e :
  mock_document d = Raise e -> e = KeyError \/ e = ValueError.
Proof.
  unfold mock_document, spec, str_int.
  destruct (specs d !! "processor"); cbn [mbind result_bind]; [|intros [= <-]; by left].
  destruct (within_limit _); cbn [mbind result_bind]; [|intros [= <-]; by right].
  destruct (specs d !! "memory"); cbn [mbind result_bind]; [|intros [= <-]; by left].
  destruct (specs d !! "storage"); cbn [mbind result_bind]; [|intros [= <-]; by left].
  destruct (specs d !! "operating_system"); cbn [mbind result_bind]; [|intros [= <-]; by left].
  intros H. discriminate H.
Qed.

(** X4. The insert script adds its documents after those already stored,
    which it leaves alone, one per device and in the order of the list,
    each under the identifier the store generates for it; it goes through
    the whole list unless a device stops it: with a KeyError when it
    lacks one of the four keys read with [[]], with a ValueError when its
    performance has more digits than a text may take; the devices before
    that one are inserted and none after it. *)
Theorem insert_mock_devices_prefix fresh devices : forall i collection,
  exists k,
    (k = length devices \/
     exists d, devices !! k = Some d /\
       (mock_document d = Raise KeyError \/ mock_document d = Raise ValueError)) /\
    length (insert_mock_devices fresh i devices collection) = length collection + k /\
    (forall j, j < length collection ->
       insert_mock_devices fresh i devices collection !! j = collection !! j) /\
    (forall j d, j < k -> devices !! j = Some d ->
       exists doc, mock_document d = Ok doc /\
         insert_mock_devices fresh i devices collection !! (length collection + j)
           = Some (Document (fresh (i + j)) doc)).
Proof.
  induction devices as [|d rest IH]; intros i collection; cbn [insert_mock_devices].
  - exists 0. split; [by left|]. split; [lia|]. split; [done|]. intros j d Hj. lia.
  - destruct (mock_document d) as [doc|e] eqn:Hd.
    + destruct (IH (S i) (collection ++ [Document (fresh i) doc])%list)
        as (k & Hstop & Hlen & Hold & Hnew).
      rewrite length_app in Hlen, Hold, Hnew. cbn [length] in Hlen, Hold, Hnew.
      exists (S k). split.
      { destruct Hstop as [->|(d' & Hk & Hr)]; [by left|]. right. by exists d'. }
      split; [lia|]. split.
      { intros j Hj. rewrite Hold by lia. by rewrite lookup_app_l. }
      intros [|j] d' Hj Hd'.
      * cbn in Hd'. injection Hd' as <-. exists doc. split; [done|].
        rewrite !Nat.add_0_r, Hold by lia.
        rewrite lookup_app_r by lia. by rewrite Nat.sub_diag.
      * cbn in Hd'. destruct (Hnew j d') as (doc' & Hdoc' & Hl); [lia|done|].
        exists doc'. split; [done|].
        replace (length collection + S j) with (length collection + 1 + j) by lia.
        rewrite Hl. by replace (S i + j) with (i + S j) by lia.
    + exists 0. split.
      { right. exists d. split; [done|].
        destruct (mock_document_raise d e Hd) as [->| ->]; [by left | by right]. }
      split; [lia|]. split; [done|]. intros j d' Hj. lia.
Qed.

End MockLoop.

(** ** Seeding the application links *)

Section SeedFacts.
Import Store App Shape Seed Seeded.
Local Open Scope string_scope.

Lemma init_applications_specs db loaded fresh :
  device_specs_collection (init_applications db loaded fresh) = device_specs_collection db.
Proof.
  unfold init_applications.
  destruct (name_to_id _) as [m|e]; cbn [mbind result_bind]; [|done].
  destruct loaded as [data|e]; cbn [mbind result_bind]; [|done].
  by destruct (Py.iter data).
Qed.

(** X6. Seeding again with the same file replaces the links of the first
    run: the store after the second run is the one a single run gives, with
    the identifiers generated in the second run. *)
Theorem init_applications_again db loaded fresh fresh' :
  init_applications (init_applications db loaded fresh) loaded fresh'
    = init_applications db loaded fresh'.
Proof.
  unfold init_applications.
  destruct (name_to_id (device_specs_collection db)) as [m|e] eqn:Hm;
    cbn [mbind result_bind]; [|by rewrite Hm].
  destruct loaded as [data|e]; cbn [mbind result_bind]; [|by rewrite Hm].
  destruct (Py.iter data) as [entries|e] eqn:Hit; cbn [device_specs_collection];
    rewrite Hm; cbn [mbind result_bind]; by rewrite Hit.
Qed.

Lemma for_each_Forall {A B} (f : A -> result B) (P : B -> Prop) l : forall ys,
  for_each f l = Ok ys -> (forall x y, f x = Ok y -> P y) -> Forall P ys.
Proof.
  induction l as [|x l IH]; intros ys; cbn [for_each].
  - intros [= <-] _. constructor.
  - destruct (f x) as [y|e] eqn:Hy; cbn [mbind result_bind]; [|done].
    destruct (for_each f l) as [ys'|e]; cbn [mbind result_bind]; [|done].
    intros [= <-] HP. constructor; [by eapply HP | by apply IH].
Qed.

Lemma application_entry_named v e : application_entry v = Ok e -> named_entry e = true.
Proof.
  unfold application_entry.
  destruct (get_app_type v); cbn [mbind result_bind]; [|done].
  destruct (get_app_description v); cbn [mbind result_bind]; [|done].
  intros [= <-]. cbn [named_entry]. unfold Py.has_key.
  cbn [list_to_map foldr uncurry fst snd]. by rewrite lookup_insert_eq.
Qed.

Lemma name_to_id_ids specs : forall m,
  name_to_id specs = Ok m ->
  m = map (fun doc => (Py.get_or (to_dict doc) "deviceName" (VStr ""), _id doc)) specs.
Proof.
  unfold name_to_id. induction specs as [|doc specs IH]; intros m; cbn [for_each map].
  - by intros [= <-].
  - destruct (hashable _); cbn [mbind result_bind]; [|done].
    destruct (for_each _ specs) as [m'|e]; cbn [mbind result_bind]; [|done].
    intros [= <-]. by rewrite (IH m' eq_refl).
Qed.

Lemma lookup_name_bound m k device_id :
  lookup_name m k = Ok (Some device_id) -> exists k', In (k', device_id) m /\ key_eq k' k = true.
Proof.
  unfold lookup_name. destruct (hashable k); [|done].
  destruct (find _ (rev m)) as [[k' v]|] eqn:Hfind; [|done].
  intros [= <-]. apply find_some in Hfind as [Hin Heq].
  exists k'. split; [by apply in_rev | done].
Qed.

Lemma seed_one_sound m oid app_data link :
  seed_one m oid app_data = Ok (Some link) -> sound_link m link.
Proof.
  unfold seed_one.
  destruct (Py.subscript app_data "deviceName") as [device_name|e]; cbn [mbind result_bind];
    [|done].
  destruct (lookup_name m device_name) as [[device_id|]|e] eqn:Hlook; cbn [mbind result_bind];
    [|done|done].
  destruct (String.eqb device_id "") eqn:Hid; [done|].
  destruct (Py.subscript app_data "applications") as [l|e]; cbn [mbind result_bind]; [|done].
  destruct (Py.iter l) as [names|e]; cbn [mbind result_bind]; [|done].
  destruct (for_each application_entry names) as [entries|e] eqn:Hentries;
    cbn [mbind result_bind]; [|done].
  intros [= <-]. split.
  - unfold link_well_formed. rewrite to_dict_field by done.
    cbn [fields list_to_map foldr uncurry fst snd].
    rewrite lookup_insert_ne, lookup_insert_ne, lookup_insert_eq by done.
    apply forallb_forall. intros e He.
    pose proof (for_each_Forall _ (fun e => named_entry e = true) _ _ Hentries
                  application_entry_named) as Hall.
    rewrite Forall_forall in Hall. by apply Hall, list_elem_of_In.
  - exists device_id. rewrite to_dict_field by done.
    cbn [fields list_to_map foldr uncurry fst snd]. rewrite lookup_insert_eq.
    split; [done|]. split; [by apply String.eqb_neq|].
    apply lookup_name_bound in Hlook as (k' & Hin & _).
    apply in_map_iff. by exists (k', device_id).
Qed.

Lemma seed_links_sound m fresh entries : forall links,
  Forall (sound_link m) links -> Forall (sound_link m) (seed_links m fresh entries links).
Proof.
  induction entries as [|app_data entries IH]; intros links Hlinks; cbn [seed_links]; [done|].
  destruct (seed_one m _ app_data) as [[link|]|e] eqn:Hone; [|by apply IH|done].
  apply IH, Forall_app. split; [done|]. constructor; [|constructor].
  by eapply seed_one_sound.
Qed.

(** X7. Seeding either fails before it deletes anything and leaves the
    store as it was, or leaves a store in which every application link
    lists named entries only and carries, as its ['device_id'], the
    non-empty identifier of a specification of the store. *)
Theorem seeded_links_sound db loaded fresh :
  init_applications db loaded fresh = db \/
  (links_well_formed (init_applications db loaded fresh) = true /\
   forall link, In link (device_apps_collection (init_applications db loaded fresh)) ->
     exists doc, In doc (device_specs_collection db) /\
                 to_dict link !! "device_id" = Some (VStr (_id doc)) /\ _id doc <> "").
Proof.
  unfold init_applications.
  destruct (name_to_id _) as [m|e] eqn:Hm; cbn [mbind result_bind]; [|by left].
  destruct loaded as [data|e]; cbn [mbind result_bind]; [|by left].
  right. destruct (Py.iter data) as [entries|e]; [|by split].
  cbn [device_apps_collection].
  pose proof (seed_links_sound m fresh entries [] (List.Forall_nil _)) as Hsound.
  rewrite Forall_forall in Hsound. split.
  - unfold links_well_formed. cbn [device_apps_collection]. apply forallb_forall.
    intros link Hin. by apply Hsound, list_elem_of_In.
  - intros link Hin. destruct (Hsound link) as (_ & device_id & Hdev & Hne & Hbound);
      [by apply list_elem_of_In|].
    rewrite (name_to_id_ids _ _ Hm), map_map in Hbound. cbn [snd] in Hbound.
    apply in_map_iff in Hbound as (doc & <- & Hdoc). by exists doc.
Qed.

Lemma name_to_id_total specs :
  Forall (fun doc => hashable (Py.get_or (to_dict doc) "deviceName" (VStr "")) = true) specs ->
  name_to_id specs
    = Ok (map (fun doc => (Py.get_or (to_dict doc) "deviceName" (VStr ""), _id doc)) specs).
Proof.
  unfold name_to_id. induction 1 as [|doc specs Hdoc _ IH]; [done|].
  cbn [for_each map]. rewrite Hdoc. cbn [mbind result_bind]. by rewrite IH.
Qed.

(** X8. After seeding from any parsed file, the device listing answers
    200 with one view per specification, provided every device name can be
    a dictionary key and no 'AI Performance' is an infinite float or a
    text with a run of more than 4300 digits: the links the script writes
    never make the listing fail. *)
Theorem listing_after_seeding db data fresh seen :
  Forall (fun doc => hashable (Py.get_or (to_dict doc) "deviceName" (VStr "")) = true)
         (device_specs_collection db) ->
  forallb (fun doc => negb (infinite (ai_perf_of doc))) (device_specs_collection db) = true ->
  forallb (fun doc => short_runs (ai_perf_of doc)) (device_specs_collection db) = true ->
  exists views,
    get_mongodb_devices (init_applications db (Ok data) fresh) seen
      = Json 200 (VList (VDict <$> views)) /\
    length views = length (device_specs_collection db).
Proof.
  intros Hnames Hfin Hshort.
  assert (links_well_formed (init_applications db (Ok data) fresh) = true) as Hwf.
  { unfold init_applications. rewrite (name_to_id_total _ Hnames). cbn [mbind result_bind].
    set (m := map _ _).
    destruct (Py.iter data) as [entries|e]; [|done].
    unfold links_well_formed. cbn [device_apps_collection]. apply forallb_forall.
    intros link Hin.
    pose proof (seed_links_sound m fresh entries [] (List.Forall_nil _)) as Hsound.
    rewrite Forall_forall in Hsound. by apply Hsound, list_elem_of_In. }
  unfold get_mongodb_devices. rewrite init_applications_specs.
  destruct (device_views_total (init_applications db (Ok data) fresh) seen
              (device_specs_collection db) 0 Hwf Hfin Hshort) as (views & -> & Hlen).
  by exists views.
Qed.

Lemma listing_after_seeding_holds :
  exists views,
    get_mongodb_devices
      (init_applications Sample.ncox_db (Ok (VList (app_item <$> Fixture.items)))
                         Fixture.fresh) Sample.clock
      = Json 200 (VList (VDict <$> views)) /\
    length views = length (device_specs_collection Sample.ncox_db).
Proof.
  apply listing_after_seeding.
  - repeat constructor.
  - vm_compute. reflexivity.
  - vm_compute. reflexivity.
Defined.

End SeedFacts.

Section SeedRoundTrip.
Import Store App Shape Seed Seeded.
Local Open Scope string_scope.

Lemma key_eq_str k n : key_eq k (VStr n) = true -> k = VStr n.
Proof.
  destruct k as [|b|z|f|s|h|l|d]; cbn; try discriminate; try (by destruct f).
  intros H. apply String.eqb_eq in H. by subst.
Qed.

Lemma find_app_l {A} (p : A -> bool) l1 l2 :
  find p (l1 ++ l2) = match find p l1 with Some x => Some x | None => find p l2 end.
Proof. induction l1 as [|x l1 IH]; [done|]. cbn [app find]. by destruct (p x). Qed.

Lemma for_each_fmap {A B C} (g : A -> B) (f : B -> result C) (h : A -> C) l :
  (forall a, f (g a) = Ok (h a)) -> for_each f (g <$> l) = Ok (h <$> l).
Proof.
  intros Hf. induction l as [|a l IH]; [done|].
  rewrite !fmap_cons. cbn [for_each]. rewrite Hf. cbn [mbind result_bind]. by rewrite IH.
Qed.

Lemma for_each_entries apps :
  for_each application_entry (VStr <$> apps) = Ok ((fun a => VDict (entry_of a)) <$> apps).
Proof. by apply for_each_fmap. Qed.

Lemma for_each_names apps :
  for_each (fun app => Py.subscript app "name") ((fun a => VDict (entry_of a)) <$> apps)
    = Ok (VStr <$> apps).
Proof.
  apply for_each_fmap. intros a. cbn [Py.subscript]. unfold Py.getitem, entry_of.
  cbn [list_to_map foldr uncurry fst snd]. by rewrite lookup_insert_eq.
Qed.

Section Table.
Variable specs : list document.
Variable doc : document.
Variable n : string.
Hypothesis Hids : NoDup (map _id specs).
Hypothesis Hdoc : In doc specs.
Hypothesis Hname : name_of doc = VStr n.
Hypothesis Honly : forall doc', In doc' specs -> name_of doc' = VStr n -> doc' = doc.

Let m := map (fun doc => (name_of doc, _id doc)) specs.

Lemma same_id doc' : In doc' specs -> _id doc' = _id doc -> doc' = doc.
Proof using Hids Hdoc.
  clear Hname Honly. intros Hin Hid. revert Hids Hin Hdoc.
  induction specs as [|d l IH]; [done|]. cbn [map In]. intros Hnd Hin Hdoc'.
  apply NoDup_cons in Hnd as [Hnotin Hnd].
  assert (forall x, In x l -> In (_id x) (map _id l)) as Hmem
    by (intros x Hx; apply in_map_iff; by exists x).
  destruct Hin as [<-|Hin], Hdoc' as [<-|Hdoc']; try done.
  - exfalso. apply Hnotin, list_elem_of_In. rewrite Hid. by apply Hmem.
  - exfalso. apply Hnotin, list_elem_of_In. rewrite <- Hid. by apply Hmem.
  - by apply IH.
Qed.

Lemma lookup_named n' :
  lookup_name m (VStr n') = Ok (Some (_id doc)) <-> n' = n.
Proof using All.
  unfold lookup_name. cbn [hashable]. split.
  - destruct (find _ (rev m)) as [[k v]|] eqn:Hfind; [|done]. intros [= Hv].
    apply find_some in Hfind as [Hin Hk]. cbn [fst snd] in *.
    apply key_eq_str in Hk as ->. apply in_rev, in_map_iff in Hin as (doc' & [= Hn' Hid'] & Hin).
    rewrite Hv in Hid'. assert (doc' = doc) as -> by (by apply same_id).
    rewrite Hname in Hn'. by injection Hn'.
  - intros ->. destruct (find _ (rev m)) as [[k v]|] eqn:Hfind.
    + apply find_some in Hfind as [Hin Hk]. cbn [fst snd] in *.
      apply key_eq_str in Hk as ->. apply in_rev, in_map_iff in Hin as (doc' & [= Hn' Hid'] & Hin).
      rewrite (Honly doc' Hin Hn') in Hid'. by rewrite Hid'.
    + exfalso. assert (In (name_of doc, _id doc) (rev m)) as Hin
        by (apply -> in_rev; apply in_map_iff; by exists doc).
      apply (find_none _ _ Hfind) in Hin. cbn [fst] in Hin.
      rewrite Hname in Hin. cbn [key_eq] in Hin. rewrite String.eqb_refl in Hin.
      discriminate Hin.
Qed.

Variable fresh : nat -> string.
Hypothesis Hne : _id doc <> "".

Lemma seed_one_item oid it :
  seed_one m oid (app_item it) =
  match lookup_name m (VStr it.1) with
  | Ok (Some device_id) =>
      if String.eqb device_id "" then Ok None
      else Ok (Some (Document oid (link_fields device_id it)))
  | Ok None => Ok None
  | Raise e => Raise e
  end.
Proof using Type.
  unfold seed_one, app_item. cbn [Py.subscript]. unfold Py.getitem.
  cbn [list_to_map foldr uncurry fst snd]. rewrite lookup_insert_eq.
  cbn [mbind result_bind].
  destruct (lookup_name m (VStr it.1)) as [[device_id|]|e]; cbn [mbind result_bind]; try done.
  destruct (String.eqb device_id ""); [done|].
  rewrite lookup_insert_ne, lookup_insert_eq by done.
  cbn [mbind result_bind Py.iter]. by rewrite for_each_entries.
Qed.

Lemma names_of_link oid device_id it :
  application_names (Some (to_dict (Document oid (link_fields device_id it))))
    = Ok (VList (VStr <$> it.2)).
Proof using Type.
  unfold application_names, linked_applications. rewrite truthy_to_dict.
  rewrite to_dict_field by done. unfold link_fields.
  cbn [fields list_to_map foldr uncurry fst snd].
  rewrite lookup_insert_ne, lookup_insert_ne, lookup_insert_eq by done.
  cbn [Py.iter mbind result_bind]. by rewrite for_each_names.
Qed.

Lemma find_link oid device_id it id :
  find_one_by "device_id" id [Document oid (link_fields device_id it)]
    = if String.eqb device_id id then Some (Document oid (link_fields device_id it)) else None.
Proof using Type.
  unfold find_one_by. cbn [find]. rewrite to_dict_field by done. unfold link_fields.
  cbn [fields list_to_map foldr uncurry fst snd]. rewrite lookup_insert_eq. done.
Qed.

Lemma seeded_find items : forall links,
  application_names
    (to_dict <$> find_one_by "device_id" (_id doc)
                   (seed_links m fresh (app_item <$> items) links))
  = match find_one_by "device_id" (_id doc) links with
    | Some l => application_names (Some (to_dict l))
    | None => Ok (VList (VStr <$> default [] (snd <$> find (fun it => String.eqb it.1 n) items)))
    end.
Proof using All.
  induction items as [|it items IH]; intros links.
  - cbn [fmap list_fmap seed_links find]. by destruct (find_one_by _ _ links).
  - rewrite fmap_cons. cbn [seed_links find]. rewrite seed_one_item.
    pose proof (lookup_named it.1) as Hlook.
    assert (forall l, find_one_by "device_id" (_id doc) (links ++ [l])
              = match find_one_by "device_id" (_id doc) links with
                | Some x => Some x
                | None => find_one_by "device_id" (_id doc) [l]
                end) as Happ by (intros l; apply find_app_l).
    destruct (String.eqb it.1 n) eqn:E.
    + apply String.eqb_eq in E. rewrite (proj2 Hlook E).
      apply String.eqb_neq in Hne as ->. rewrite IH, Happ, find_link, String.eqb_refl.
      destruct (find_one_by _ _ links); [done|]. by rewrite names_of_link.
    + apply String.eqb_neq in E.
      destruct (lookup_name m (VStr it.1)) as [[device_id|]|e] eqn:Hl.
      * destruct (String.eqb device_id "") eqn:Hempty; [by rewrite IH|].
        rewrite IH, Happ, find_link.
        destruct (String.eqb device_id (_id doc)) eqn:Hsame; [|by destruct (find_one_by _ _ links)].
        apply String.eqb_eq in Hsame. subst device_id. exfalso. by apply E, Hlook.
      * by rewrite IH.
      * unfold lookup_name in Hl. cbn [hashable] in Hl. discriminate Hl.
Qed.

End Table.

(** X9. Seeding, then listing: for a well-typed file, a specification
    with a non-empty identifier and a text name no other specification
    has, whose performance is neither an infinite float nor a text with a
    run of more than 4300 digits, is listed with the application names of
    the first entry of the file under that name, in the order of the
    file, and with no application when the file has no entry under that
    name. *)
Theorem seeded_applications_listed db items fresh seen doc n :
  Forall (fun doc => hashable (name_of doc) = true) (device_specs_collection db) ->
  NoDup (map _id (device_specs_collection db)) ->
  In doc (device_specs_collection db) -> _id doc <> "" -> name_of doc = VStr n ->
  (forall doc', In doc' (device_specs_collection db) -> name_of doc' = VStr n -> doc' = doc) ->
  infinite (ai_perf_of doc) = false -> short_runs (ai_perf_of doc) = true ->
  exists view,
    device_view (init_applications db (Ok (VList (app_item <$> items))) fresh) seen doc
      = Ok view /\
    view !! "applications"
      = Some (VList (VStr <$> default [] (snd <$> find (fun it => String.eqb it.1 n) items))).
Proof.
  intros Hhash Hids Hdoc Hne Hname Honly Hfin Hshort. rewrite device_view_eq.
  unfold init_applications. rewrite (name_to_id_total _ Hhash).
  cbn [mbind result_bind Py.iter device_apps_collection].
  pose proof (seeded_find _ doc n Hids Hdoc Hname Honly fresh Hne items []) as Hfind.
  unfold name_of in Hfind. rewrite Hfind.
  cbn [find_one_by find mbind result_bind].
  destruct (performance_rules _ Hfin Hshort) as (perf & -> & _). cbn [mbind result_bind].
  eexists. split; [reflexivity|]. apply completed_applications.
Qed.

Lemma seeded_applications_listed_holds :
  exists view,
    device_view
      (init_applications Sample.ncox_db (Ok (VList (app_item <$> Fixture.items)))
                         Fixture.fresh)
      (Sample.clock 0) (Sample.ncox Sample.an_oid) = Ok view /\
    view !! "applications"
      = Some (VList (VStr <$> default []
                 (snd <$> find (fun it => String.eqb it.1 "NCOX") Fixture.items))).
Proof.
  apply seeded_applications_listed.
  - repeat constructor.
  - repeat constructor. intros H. inversion H.
  - by left.
  - done.
  - reflexivity.
  - intros doc' [<-|[]] _. reflexivity.
  - reflexivity.
  - vm_compute. reflexivity.
Defined.

End SeedRoundTrip.

(** ** The files a backup gathers *)

Section BackupFacts.
Import Backup Tree.
Local Open Scope string_scope.

Lemma filenames_in children f : In f (filenames children) <-> In (File f) children.
Proof.
  unfold filenames. rewrite in_flat_map. split.
  - intros ([g|name sub] & Hin & Hf); [|done]. destruct Hf as [<-|[]]. done.
  - intros Hin. exists (File f). split; [done | by left].
Qed.

Lemma walk_node_in n : forall pre p fs,
  In (p, fs) (walk_node pre n) <->
  exists name sub q children,
    n = Dir name sub /\ p = (pre ++ name :: q)%list /\ folder_at sub q children /\
    fs = filenames children.
Proof.
  induction n as [f|name sub IH] using node_induction; intros pre p fs; cbn [walk_node].
  - split; [done|]. by intros (? & ? & ? & ? & ? & _).
  - rewrite Forall_forall in IH. cbn [In]. rewrite in_flat_map. split.
    + intros [[= <- <-]|(child & Hchild & Hin)].
      * exists name, sub, [], sub. repeat split; constructor.
      * apply IH in Hin as (cname & csub & q & children & -> & -> & Hfolder & ->);
          [|by apply list_elem_of_In].
        exists name, sub, (cname :: q), children. repeat split.
        -- by rewrite <- app_assoc.
        -- by econstructor.
    + intros (name' & sub' & q & children & [= <- <-] & -> & Hfolder & ->).
      inversion Hfolder as [|? cname csub q' ? Hchild Hsub]; subst.
      * by left.
      * right. exists (Dir cname csub). split; [done|].
        apply IH; [by apply list_elem_of_In|].
        exists cname, csub, q', children. repeat split; [|done]. by rewrite <- app_assoc.
Qed.

Lemma walk_in top p fs :
  In (p, fs) (walk top) <-> exists children, folder_at top p children /\ fs = filenames children.
Proof.
  unfold walk. cbn [In]. rewrite in_flat_map. split.
  - intros [[= <- <-]|(child & Hchild & Hin)].
    + exists top. split; [constructor | done].
    + apply walk_node_in in Hin as (name & sub & q & children & -> & -> & Hfolder & ->).
      exists children. split; [by econstructor | done].
  - intros (children & Hfolder & ->). inversion Hfolder as [|? name sub q ? Hchild Hsub]; subst.
    + by left.
    + right. exists (Dir name sub). split; [done|]. apply walk_node_in.
      by exists name, sub, q, children.
Qed.

Lemma excluded_false path :
  excluded path = false <-> Forall (fun part => ~ In part EXCLUDE_DIRS) path.
Proof.
  unfold excluded, folder_parts. destruct path as [|a path].
  - split; [constructor | done].
  - set (l := a :: path). clearbody l. split.
    + intros H. apply Forall_forall. intros part Hin Hex.
      assert (existsb (fun part => bool_decide (part ∈ EXCLUDE_DIRS)) l = true) as Ht; [|congruence].
      apply existsb_exists. exists part. split; [by apply list_elem_of_In|].
      by apply bool_decide_eq_true, list_elem_of_In.
    + intros H. apply not_true_is_false. intros Ht.
      apply existsb_exists in Ht as (part & Hin & Hex).
      rewrite Forall_forall in H. apply (H part); [by apply list_elem_of_In|].
      apply bool_decide_eq_true in Hex. by apply list_elem_of_In.
Qed.

(** X10. The backup archives exactly the files of the project tree whose
    folder has no component named backups, venv, env or ENV: a file is
    gathered if and only if it lies in a folder reached from the top
    through folders none of which bears an excluded name (a file that
    itself bears such a name is archived). *)
Theorem files_to_zip_spec top path f :
  In (path ++ [f])%list (files_to_zip top) <->
  has_file top path f /\ Forall (fun part => ~ In part EXCLUDE_DIRS) path.
Proof.
  unfold files_to_zip, has_file. rewrite in_flat_map. split.
  - intros ([p fs] & Hwalk & Hin). cbn [fst snd] in Hin.
    destruct (excluded p) eqn:Hex; [done|].
    apply in_map_iff in Hin as (g & Heq & Hg).
    apply app_inj_tail in Heq as [-> ->].
    apply walk_in in Hwalk as (children & Hfolder & ->).
    split; [|by apply excluded_false].
    exists children. split; [done|]. by apply filenames_in.
  - intros [(children & Hfolder & Hfile) Hpath].
    exists (path, filenames children). split; [apply walk_in; by exists children|].
    cbn [fst snd]. rewrite (proj2 (excluded_false path) Hpath).
    apply in_map_iff. exists f. split; [done|]. by apply filenames_in.
Qed.

End BackupFacts.

(** ** The backup a restore picks *)

Section RestoreFacts.
Import Restore.
Local Open Scope string_scope.

Lemma sort_desc_head {A} (key : A -> Z) l :
  l <> [] ->
  exists x, head (sort_desc key l) = Some x /\ In x l /\
            forall y, In y l -> (key y <= key x)%Z.
Proof.
  induction l as [|a l IH]; [done|]. intros _. cbn [sort_desc foldr].
  fold (sort_desc key l). destruct l as [|b l].
  - exists a. cbn. repeat split; [by left|]. intros y [<-|[]]. lia.
  - destruct IH as (x & Hhead & Hin & Hmax); [done|].
    destruct (sort_desc key (b :: l)) as [|s rest]; [done|]. injection Hhead as ->.
    cbn [insert_desc]. destruct (key x <=? key a)%Z eqn:E.
    + apply Z.leb_le in E. exists a. repeat split; [by left|].
      intros y [<-|Hy]; [lia|]. specialize (Hmax y Hy). lia.
    + apply Z.leb_gt in E. exists x. repeat split; [by right|].
      intros y [<-|Hy]; [lia | by apply Hmax].
Qed.

(** X11. The backup chosen for a restore is an entry of the folder that
    matches the pattern and no matching entry is newer; there is none
    exactly when the folder is not a directory or holds no matching
    entry. *)
Theorem find_latest_backup_newest is_zip folder :
  match find_latest_backup is_zip folder with
  | Some f =>
      exists entries, folder = Some entries /\ In f entries /\ is_zip f.1 = true /\
        forall g, In g entries -> is_zip g.1 = true -> (g.2 <= f.2)%Z
  | None =>
      folder = None \/
      exists entries, folder = Some entries /\
        forall g, In g entries -> is_zip g.1 = false
  end.
Proof.
  unfold find_latest_backup. destruct folder as [entries|]; [|by left].
  destruct (List.filter _ entries) as [|z zs] eqn:Hzips.
  - right. exists entries. split; [done|]. intros g Hg.
    destruct (is_zip g.1) eqn:E; [|done].
    assert (In g (List.filter (fun f : string * Z => is_zip f.1) entries)) as Hin
      by (apply filter_In; by split).
    rewrite Hzips in Hin. done.
  - destruct (sort_desc_head snd (z :: zs)) as (x & -> & Hin & Hmax); [done|].
    rewrite <- Hzips in Hin, Hmax. apply filter_In in Hin as [Hin Hzip].
    exists entries. repeat split; try done.
    intros g Hg Hgz. apply Hmax, filter_In. by split.
Qed.

End RestoreFacts.

(** ** More on the endpoints *)

Section EndpointFacts.
Import Str Re Rules Store App Shape Steps.
Local Open Scope string_scope.

Lemma digit_runs_some s : forall cur,
  cur <> [] \/ existsb isdecimal s = true -> digit_runs cur s <> [].
Proof.
  induction s as [|a t IH]; intros cur H; cbn [digit_runs].
  - destruct H as [H|H]; [by destruct cur | done].
  - destruct (isdecimal a) eqn:Ha.
    + apply IH. left. by destruct cur.
    + destruct cur; [|done]. apply IH. right. destruct H as [H|H]; [done|].
      cbn [existsb] in H. by rewrite Ha in H.
Qed.

Lemma digit_continues s f :
  existsb isdecimal (list_ascii_of_string s) = true ->
  performance (VStr s) = Ok f -> exists p, f = Continue p.
Proof.
  intros Hd. cbn [performance].
  destruct (search up_to_re _) as [m|].
  { destruct (Py.int _); cbn [mbind result_bind]; [|done]. intros [= <-]. by eexists. }
  destruct (search tops_re _) as [m|].
  { destruct (Py.int _); cbn [mbind result_bind]; [|done]. intros [= <-]. by eexists. }
  unfold findall. rewrite findall_digits by lia.
  pose proof (digit_runs_some (list_ascii_of_string s) [] (or_intror Hd)) as Hne.
  destruct (digit_runs [] _) as [|ds l]; [done|].
  destruct (for_each _ _); cbn [mbind result_bind]; [|done].
  destruct (Py.max _); cbn [mbind result_bind]; [|done]. intros [= <-]. by eexists.
Qed.

(** X12. When the 'AI Performance' of a document is a text that holds a
    digit, the pass of the device listing ends at the performance: the
    view has no ['type'], ['model'], ['name'] or ['lastSeen'] key. *)
Theorem digits_end_the_pass db seen doc view :
  device_view db seen doc = Ok view -> has_digit (ai_perf_of doc) = true ->
  view !! "type" = None /\ view !! "model" = None /\ view !! "name" = None /\
  view !! "lastSeen" = None.
Proof.
  intros Hview Hd. apply device_view_inv in Hview as (names & perf & Hperf & ->).
  destruct (ai_perf_of doc) as [| | | |s| | |]; try discriminate.
  destruct (digit_continues s perf Hd Hperf) as [p ->].
  unfold completed, annotated.
  repeat split; rewrite !lookup_insert_ne by done;
    by rewrite project_lookup, decide_False by compute_done.
Qed.

Lemma device_views_ids db seen docs : forall i views,
  device_views db seen i docs = Ok views ->
  (fun view : dict => view !! "_id") <$> views = (fun doc => Some (VOid (_id doc))) <$> docs.
Proof.
  induction docs as [|doc docs IH]; intros i views; cbn [device_views].
  - by intros [= <-].
  - destruct (device_view db (seen i) doc) as [view|e] eqn:Hview; cbn [mbind result_bind]; [|done].
    destruct (device_views db seen (S i) docs) as [vs|e] eqn:Hvs; cbn [mbind result_bind]; [|done].
    intros [= <-]. rewrite !fmap_cons, (IH _ _ Hvs). f_equal.
    apply device_view_inv in Hview as (names & perf & _ & ->).
    rewrite completed_projected by compute_done. apply lookup_insert_eq.
Qed.

(** X13. An answer of the device listing that is not the error response
    has status 200 and holds one view per specification, in the order of
    the store, each with the ObjectId of its document under ['_id']. *)
Theorem listing_keeps_order db seen status body :
  get_mongodb_devices db seen = Json status body ->
  status = 200%Z /\
  exists views,
    body = VList (VDict <$> views) /\
    (fun view : dict => view !! "_id") <$> views
      = (fun doc => Some (VOid (_id doc))) <$> device_specs_collection db.
Proof.
  unfold get_mongodb_devices.
  destruct (device_views db seen 0 _) as [views|e] eqn:Hviews; [|done].
  intros [= <- <-]. split; [done|]. exists views. split; [done|].
  by eapply device_views_ids.
Qed.






Lemma tag_step_inv (device0 device : dict) :
  tag_step device0 = Ok device ->
  (forall k, k <> "tag" -> k <> "Tag" -> device !! k = device0 !! k) /\
  is_Some (device !! "tag") /\
  (is_Some (device0 !! "tag") -> device !! "Tag" = device0 !! "Tag").
Proof.
  unfold tag_step, Py.has_key, Py.get.
  destruct (device0 !! "tag") as [t|] eqn:Ht; [|destruct (device0 !! "Tag") as [t|] eqn:HT];
    cbn [fst snd default from_option id].
  3: cbn [Py.is_none]; intros [= <-].
  1-2: destruct (Py.is_none t);
    [intros [= <-] | destruct (Py.lower t); cbn [mbind result_bind]; [intros [= <-] | done]].
  all: repeat split; try (intros k H1 H2); try (intros [? ?]); try done.
  all: repeat (rewrite lookup_insert_eq || (rewrite lookup_insert_ne by done)
               || rewrite lookup_delete_eq || (rewrite lookup_delete_ne by done)).
  all: by eauto.
Qed.

Lemma name_step_names oid (device : dict) :
  name_step oid device !! "deviceName"
    = Some (default (VStr ("Unknown Device (" ++ oid ++ ")")) (device !! "deviceName")) /\
  name_step oid device !! "formattedName" = name_step oid device !! "deviceName" /\
  name_step oid device !! "description" = Some (default VNone (device !! "description")).
Proof.
  unfold name_step, Py.has_key, Py.get.
  destruct (device !! "deviceName") as [v|] eqn:Hv; cbv zeta;
    rewrite ?lookup_insert_ne by done; rewrite ?lookup_insert_eq;
    destruct (device !! "description") as [w|] eqn:Hw; cbn [default from_option id].
  all: repeat split.
  all: repeat (rewrite lookup_insert_eq || (rewrite lookup_insert_ne by done)).
  all: by rewrite ?Hv, ?Hw.
Qed.

(** X16. A view of the with-tags listing has its identifier as a string
    under ['_id'], a ['deviceName'] that is the stored one or "Unknown
    Device (<id>)", a ['formattedName'] equal to it, a ['description'] that
    is the stored one or null, a ['tag'] and an ['applications'] key; and
    when the document has a lower-case ['tag'], a stored upper-case ['Tag']
    is kept beside it. *)
Theorem tagged_view_shape db doc view :
  tagged_view db doc = Ok view ->
  view !! "_id" = Some (VStr (_id doc)) /\
  view !! "deviceName"
    = Some (default (VStr ("Unknown Device (" ++ _id doc ++ ")")) (fields doc !! "deviceName")) /\
  view !! "formattedName" = view !! "deviceName" /\
  view !! "description" = Some (default VNone (fields doc !! "description")) /\
  is_Some (view !! "tag") /\ is_Some (view !! "applications") /\
  (is_Some (fields doc !! "tag") -> view !! "Tag" = fields doc !! "Tag").
Proof.
  rewrite tagged_view_eq.
  destruct (tag_step _) as [device|e] eqn:Hstep; cbn [mbind result_bind]; [|done].
  destruct (application_names _) as [names|e]; cbn [mbind result_bind]; [|done].
  intros [= <-]. apply tag_step_inv in Hstep as (Hk & Htag & HTag).
  destruct (name_step_names (_id doc) (<["applications" := names]> device)) as (Hn & Hf & Hd).
  rewrite !lookup_insert_ne in Hn, Hd by done.
  rewrite Hk, fetched_field in Hn, Hd by done.
  repeat split; try done.
  - rewrite name_step_other, lookup_insert_ne, Hk by done. apply lookup_insert_eq.
  - by rewrite name_step_other, lookup_insert_ne by done.
  - rewrite name_step_other by done. rewrite lookup_insert_eq. by eexists.
  - intros Hsome. rewrite name_step_other, lookup_insert_ne by done.
    rewrite HTag by (by rewrite fetched_field). by apply fetched_field.
Qed.

Lemma digits_end_the_pass_holds :
  exists view,
    device_view Sample.ncox_db (Sample.clock 0) (Sample.ncox Sample.an_oid) = Ok view /\
    view !! "type" = None /\ view !! "model" = None /\ view !! "name" = None /\
    view !! "lastSeen" = None.
Proof.
  destruct (device_view_total Sample.ncox_db (Sample.clock 0) (Sample.ncox Sample.an_oid))
    as (names & perf & _ & _ & _ & Hview); try (vm_compute; reflexivity).
  eexists. split; [exact Hview|].
  apply (digits_end_the_pass _ _ _ _ Hview). vm_compute. reflexivity.
Defined.

Lemma listing_keeps_order_holds :
  exists status body,
    get_mongodb_devices Sample.ncox_db Sample.clock = Json status body /\
    status = 200%Z /\
    exists views,
      body = VList (VDict <$> views) /\
      (fun view : dict => view !! "_id") <$> views = [Some (VOid Sample.an_oid)].
Proof.
  destruct (device_views_total Sample.ncox_db Sample.clock
              (device_specs_collection Sample.ncox_db) 0)
    as (views & Hviews & _); try (vm_compute; reflexivity).
  exists 200%Z, (VList (VDict <$> views)).
  assert (get_mongodb_devices Sample.ncox_db Sample.clock
          = Json 200 (VList (VDict <$> views))) as Hget
    by (unfold get_mongodb_devices; by rewrite Hviews).
  split; [exact Hget|]. exact (listing_keeps_order _ _ _ _ Hget).
Defined.

Lemma tagged_view_shape_holds :
  exists view,
    tagged_view Sample.ncox_db (Sample.ncox Sample.an_oid) = Ok view /\
    view !! "_id" = Some (VStr Sample.an_oid) /\
    view !! "deviceName" = Some (VStr "NCOX") /\
    view !! "formattedName" = view !! "deviceName" /\
    view !! "description" = Some VNone /\
    is_Some (view !! "tag") /\ is_Some (view !! "applications") /\
    (is_Some (fields (Sample.ncox Sample.an_oid) !! "tag") -> view !! "Tag" = None).
Proof.
  destruct (tagged_view_total Sample.ncox_db (Sample.ncox Sample.an_oid))
    as (view & Hview & _); try (vm_compute; reflexivity).
  exists view. split; [exact Hview|].
  exact (tagged_view_shape _ _ _ Hview).
Defined.

End EndpointFacts.
